(** * Health monitors of Cyphon Engine: [monitors/models.py]

    A shallow embedding of the [Monitor] model and of the collaborators it
    calls, followed by the properties of its status evaluation, activity
    scan and alert policy.

    Conventions of the embedding.
    - A [datetime] is a count of microseconds since the epoch and a
      [timedelta] a count of microseconds, both in [Z].
    - [timedelta.total_seconds()] is the rational number of seconds,
      microseconds over 10^6, in [Q]; the rounding of Python's floats is
      outside the model.
    - Methods of [Monitor] are computations in the monad [Py]: they read
      and write the object [self], read the clock, query the watched
      distilleries and write to the alert table, and they may raise. *)

From Stdlib Require Import ZArith QArith Qround List String Ascii Bool Lia.
From Stdlib Require Import Permutation DecimalString.
Import ListNotations.
Local Open Scope Z_scope.

(** ** Data model *)

Definition datetime := Z.
Definition timedelta := Z.

Definition total_seconds (td : timedelta) : Q := td # 1000000.

(** [timedelta(seconds=n)] for a whole number of seconds. *)
Definition timedelta_of_seconds (n : Z) : timedelta := n * 1000000.

(** A document returned by a distillery: [doc.get('_id')] and the value
    [distillery.get_date(doc)] reads from it. *)
Module Doc.
Record t := { _id : option string; date : datetime }.
End Doc.

(** A watched distillery: its primary key, the result of
    [get_searchable_date_field()] and the documents of its collection. *)
Module Distillery.
Record t := {
  pk : Z;
  searchable_date_field : option string;
  collection : list Doc.t
}.
End Distillery.

(** An alert: its primary key and creation date, and what
    [_create_alert] passes to the constructor. *)
Module Alert.
Record t := {
  pk : Z;
  created_date : datetime;
  title : string;
  level : string;
  alarm : option Z;
  distillery : option Z;
  doc_id : option string
}.
End Alert.

Record Monitor := {
  id : option Z;
  name : string;
  enabled : bool;
  time_interval : Z;
  time_unit : string;
  alerts_enabled : bool;
  repeating_alerts : bool;
  alert_level : string;
  last_alert_date : option datetime;
  last_alert_id : option Z;
  status : string;
  created_date : option datetime;
  last_updated : option datetime;
  last_healthy : option datetime;
  last_active_distillery : option Z;
  last_saved_doc : option string
}.

Definition _HEALTHY : string := "GREEN".
Definition _UNHEALTHY : string := "RED".

(** Attribute assignments [self.x = v]. *)

Definition set_id (v : option Z) (m : Monitor) : Monitor :=
  {| id := v; name := name m; enabled := enabled m;
     time_interval := time_interval m; time_unit := time_unit m;
     alerts_enabled := alerts_enabled m;
     repeating_alerts := repeating_alerts m; alert_level := alert_level m;
     last_alert_date := last_alert_date m; last_alert_id := last_alert_id m;
     status := status m; created_date := created_date m;
     last_updated := last_updated m; last_healthy := last_healthy m;
     last_active_distillery := last_active_distillery m;
     last_saved_doc := last_saved_doc m |}.

Definition set_last_alert_date (v : option datetime) (m : Monitor) : Monitor :=
  {| id := id m; name := name m; enabled := enabled m;
     time_interval := time_interval m; time_unit := time_unit m;
     alerts_enabled := alerts_enabled m;
     repeating_alerts := repeating_alerts m; alert_level := alert_level m;
     last_alert_date := v; last_alert_id := last_alert_id m;
     status := status m; created_date := created_date m;
     last_updated := last_updated m; last_healthy := last_healthy m;
     last_active_distillery := last_active_distillery m;
     last_saved_doc := last_saved_doc m |}.

Definition set_last_alert_id (v : option Z) (m : Monitor) : Monitor :=
  {| id := id m; name := name m; enabled := enabled m;
     time_interval := time_interval m; time_unit := time_unit m;
     alerts_enabled := alerts_enabled m;
     repeating_alerts := repeating_alerts m; alert_level := alert_level m;
     last_alert_date := last_alert_date m; last_alert_id := v;
     status := status m; created_date := created_date m;
     last_updated := last_updated m; last_healthy := last_healthy m;
     last_active_distillery := last_active_distillery m;
     last_saved_doc := last_saved_doc m |}.

Definition set_status (v : string) (m : Monitor) : Monitor :=
  {| id := id m; name := name m; enabled := enabled m;
     time_interval := time_interval m; time_unit := time_unit m;
     alerts_enabled := alerts_enabled m;
     repeating_alerts := repeating_alerts m; alert_level := alert_level m;
     last_alert_date := last_alert_date m; last_alert_id := last_alert_id m;
     status := v; created_date := created_date m;
     last_updated := last_updated m; last_healthy := last_healthy m;
     last_active_distillery := last_active_distillery m;
     last_saved_doc := last_saved_doc m |}.

Definition set_created_date (v : option datetime) (m : Monitor) : Monitor :=
  {| id := id m; name := name m; enabled := enabled m;
     time_interval := time_interval m; time_unit := time_unit m;
     alerts_enabled := alerts_enabled m;
     repeating_alerts := repeating_alerts m; alert_level := alert_level m;
     last_alert_date := last_alert_date m; last_alert_id := last_alert_id m;
     status := status m; created_date := v;
     last_updated := last_updated m; last_healthy := last_healthy m;
     last_active_distillery := last_active_distillery m;
     last_saved_doc := last_saved_doc m |}.

Definition set_last_updated (v : option datetime) (m : Monitor) : Monitor :=
  {| id := id m; name := name m; enabled := enabled m;
     time_interval := time_interval m; time_unit := time_unit m;
     alerts_enabled := alerts_enabled m;
     repeating_alerts := repeating_alerts m; alert_level := alert_level m;
     last_alert_date := last_alert_date m; last_alert_id := last_alert_id m;
     status := status m; created_date := created_date m;
     last_updated := v; last_healthy := last_healthy m;
     last_active_distillery := last_active_distillery m;
     last_saved_doc := last_saved_doc m |}.

(** The three assignments that end [_update_doc_info]'s loop body. *)
Definition set_doc_info (h : option datetime) (d : option Z)
    (doc : option string) (m : Monitor) : Monitor :=
  {| id := id m; name := name m; enabled := enabled m;
     time_interval := time_interval m; time_unit := time_unit m;
     alerts_enabled := alerts_enabled m;
     repeating_alerts := repeating_alerts m; alert_level := alert_level m;
     last_alert_date := last_alert_date m; last_alert_id := last_alert_id m;
     status := status m; created_date := created_date m;
     last_updated := last_updated m; last_healthy := h;
     last_active_distillery := d;
     last_saved_doc := doc |}.

(** ** The world a method runs in *)

Record State := {
  self : Monitor;
  (** [clock k] is what the [k]-th call of [timezone.now()] returns. *)
  clock : nat -> datetime;
  reads : nat;
  (** The rows of [self.distilleries.all()], in the order the database
      returns them. *)
  distilleries : list Distillery.t;
  (** Whether the alert table accepts a write, and its rows. *)
  alert_store_up : bool;
  alerts : list Alert.t;
  (** The rows of the monitor table. *)
  monitors : list Monitor
}.

Definition with_self (m : Monitor) (s : State) : State :=
  {| self := m; clock := clock s; reads := reads s;
     distilleries := distilleries s; alert_store_up := alert_store_up s;
     alerts := alerts s; monitors := monitors s |}.

Definition with_reads (k : nat) (s : State) : State :=
  {| self := self s; clock := clock s; reads := k;
     distilleries := distilleries s; alert_store_up := alert_store_up s;
     alerts := alerts s; monitors := monitors s |}.

Definition with_alerts (l : list Alert.t) (s : State) : State :=
  {| self := self s; clock := clock s; reads := reads s;
     distilleries := distilleries s; alert_store_up := alert_store_up s;
     alerts := l; monitors := monitors s |}.

Definition with_monitors (l : list Monitor) (s : State) : State :=
  {| self := self s; clock := clock s; reads := reads s;
     distilleries := distilleries s; alert_store_up := alert_store_up s;
     alerts := alerts s; monitors := l |}.

(** ** The monad of methods: state and exceptions *)

Inductive Exn := DatabaseError.

Inductive Outcome (A : Type) :=
| Return (a : A)
| Raise (e : Exn).
Arguments Return {A} a.
Arguments Raise {A} e.

Definition Py (A : Type) := State -> Outcome A * State.

Definition ret {A} (a : A) : Py A := fun s => (Return a, s).

Definition bind {A B} (c : Py A) (k : A -> Py B) : Py B :=
  fun s =>
    match c s with
    | (Return a, s') => k a s'
    | (Raise e, s') => (Raise e, s')
    end.

Definition raise {A} (e : Exn) : Py A := fun s => (Raise e, s).

Declare Scope py_scope.
Delimit Scope py_scope with py.
Notation "x <- c ;; k" := (bind c (fun x => k))
  (at level 61, c at next level, right associativity) : py_scope.
Notation "c ;; k" := (bind c (fun _ => k))
  (at level 61, right associativity) : py_scope.
Local Open Scope py_scope.

Definition get_self : Py Monitor := fun s => (Return (self s), s).

Definition assign (f : Monitor -> Monitor) : Py unit :=
  fun s => (Return tt, with_self (f (self s)) s).

(** [timezone.now()] *)
Definition timezone_now : Py datetime :=
  fun s => (Return (clock s (reads s)), with_reads (S (reads s)) s).

(** [for x in xs: body(x)] *)
Fixpoint for_each {A} (body : A -> Py unit) (xs : list A) : Py unit :=
  match xs with
  | [] => ret tt
  | x :: xs' => body x ;; for_each body xs'
  end.

(** The value and the state a computation ends with. *)
Definition result {A} (c : Py A) (s : State) : Outcome A := fst (c s).
Definition after {A} (c : Py A) (s : State) : State := snd (c s).

(** Python's truth value of a string that may be [None]. *)
Definition truthy_str (o : option string) : bool :=
  match o with
  | Some EmptyString => false
  | Some _ => true
  | None => false
  end.

(** Python's truth value of a primary key that may be [None]. *)
Definition truthy_int (o : option Z) : bool :=
  match o with
  | Some n => negb (n =? 0)
  | None => false
  end.

(** Python's truth value of a number that may be [None]. *)
Definition truthy_num (o : option Q) : bool :=
  match o with
  | Some q => negb (Qeq_bool q 0)
  | None => false
  end.

Definition Qgt_bool (a b : Q) : bool := negb (Qle_bool a b).

(** ** Collaborators outside [monitors/models.py] *)

(** The query built by [_get_query]: documents whose [field_name] is
    greater than ([operator='gt']) [value]. *)
Record EngineQuery := { field_name : string; value : datetime }.

(** The sorter built by [_get_sorter]: descending order of [sort_field]. *)
Record Sorter := { sort_field : string }.

(** Stable insertion in descending order of date. *)
Fixpoint insert_desc (x : Doc.t) (l : list Doc.t) : list Doc.t :=
  match l with
  | [] => [x]
  | y :: l' =>
      if Doc.date x <? Doc.date y then y :: insert_desc x l' else x :: l
  end.

Fixpoint sort_desc (l : list Doc.t) : list Doc.t :=
  match l with
  | [] => []
  | x :: l' => insert_desc x (sort_desc l')
  end.

(** [distillery.find(query, sorter, page=1, page_size=1)['results']]: the
    first page, of one result, of the matching documents sorted by the
    sorter. *)
Definition find (d : Distillery.t) (query : EngineQuery) (sorter : Sorter)
    : list Doc.t :=
  firstn 1
    (sort_desc
       (filter (fun doc => value query <? Doc.date doc)
          (Distillery.collection d))).

(** [distillery.get_date(doc)] *)
Definition get_date (d : Distillery.t) (doc : Doc.t) : datetime :=
  Doc.date doc.

(** [self.distilleries.all()] *)
Definition distilleries_all : Py (list Distillery.t) :=
  fun s => (Return (distilleries s), s).

(** Modelled from the spec: the [Alert] model of [alerts/models.py] is not
    part of the sources. The alert store's [Create(title, level, monitorRef,
    sinkRef, recordId) -> Alert{id, createdAt}] either fails, leaving the
    table as it was, or appends a row with a fresh id whose creation time is
    read from the clock. *)
Definition Alert_save (title level : string) (alarm distillery : option Z)
    (doc_id : option string) : Py Alert.t :=
  fun s =>
    if alert_store_up s then
      let alert :=
        {| Alert.pk := Z.of_nat (S (List.length (alerts s)));
           Alert.created_date := clock s (reads s);
           Alert.title := title; Alert.level := level;
           Alert.alarm := alarm; Alert.distillery := distillery;
           Alert.doc_id := doc_id |} in
      (Return alert,
       with_alerts (alerts s ++ [alert]) (with_reads (S (reads s)) s))
    else (Raise DatabaseError, s).

(** Replace the row whose id is [i] by [m]. *)
Fixpoint update_row (i : Z) (m : Monitor) (rows : list Monitor)
    : list Monitor :=
  match rows with
  | [] => []
  | r :: rows' =>
      match id r with
      | Some j => if j =? i then m :: rows' else r :: update_row i m rows'
      | None => r :: update_row i m rows'
      end
  end.

Definition has_row (i : Z) (rows : list Monitor) : bool :=
  existsb (fun r => match id r with Some j => j =? i | None => false end)
    rows.

(** Django's [Model.save()] for a monitor: a monitor without a primary key
    is inserted, with a fresh key and [created_date] ([auto_now_add]) read
    from the clock; [last_updated] ([auto_now]) is read from the clock on
    every save. The write itself is taken to succeed. *)
Definition Model_save : Py unit :=
  m <- get_self ;;
  match id m with
  | None =>
      created <- timezone_now ;;
      assign (set_created_date (Some created)) ;;
      updated <- timezone_now ;;
      assign (set_last_updated (Some updated)) ;;
      (fun s =>
         let m' := set_id (Some (Z.of_nat (S (List.length (monitors s)))))
                     (self s) in
         (Return tt, with_monitors (monitors s ++ [m']) (with_self m' s)))
  | Some i =>
      updated <- timezone_now ;;
      assign (set_last_updated (Some updated)) ;;
      (fun s =>
         (Return tt,
          with_monitors
            (if has_row i (monitors s)
             then update_row i (self s) (monitors s)
             else monitors s ++ [self s]) s))
  end.

(** Python's [str] of an integer. *)
Definition string_of_Z (n : Z) : string := NilZero.string_of_int (Z.to_int n).

(** The units of a downtime. *)
Inductive Unit := Seconds | Minutes | Hours | Days.

Definition unit_seconds (u : Unit) : Z :=
  match u with
  | Seconds => 1
  | Minutes => 60
  | Hours => 3600
  | Days => 86400
  end.

Definition unit_suffix (u : Unit) : string :=
  match u with
  | Seconds => "s"
  | Minutes => "m"
  | Hours => "h"
  | Days => "d"
  end.

(** The whole number of units [u] in [seconds], rounded down. *)
Definition whole_units (seconds : Q) (u : Unit) : Z :=
  Qfloor seconds / unit_seconds u.

(** The largest unit of which [seconds] holds at least one whole; seconds
    when it holds none. *)
Definition largest_unit (seconds : Q) : Unit :=
  if 1 <=? whole_units seconds Days then Days
  else if 1 <=? whole_units seconds Hours then Hours
  else if 1 <=? whole_units seconds Minutes then Minutes
  else Seconds.

(** Modelled from the spec: [utils.dateutils.dateutils.convert_seconds] is
    not part of the sources. Downtime-to-string formatting: round down to
    whole units, pick the largest unit (seconds/minutes/hours/days) whose
    magnitude is at least 1, e.g. 95s gives "1 m". *)
Definition convert_seconds (seconds : Q) : string :=
  let u := largest_unit seconds in
  (string_of_Z (whole_units seconds u) ++ " " ++ unit_suffix u)%string.

(** ** The methods of [Monitor] *)

Section MonitorMethods.

(** [utils.dateutils.dateutils.convert_time_to_seconds], which is not part
    of the sources: the number of seconds in [time_interval] units of
    [time_unit]. *)
Variable convert_time_to_seconds : Z -> string -> Z.

Definition interval_of (m : Monitor) : Z :=
  convert_time_to_seconds (time_interval m) (time_unit m).

Definition _get_interval_in_seconds : Py Z :=
  m <- get_self ;;
  ret (interval_of m).

Definition _get_inactive_seconds : Py Q :=
  m <- get_self ;;
  match last_healthy m, created_date m with
  | Some h, _ => now <- timezone_now ;; ret (total_seconds (now - h))
  | None, Some c => now <- timezone_now ;; ret (total_seconds (now - c))
  | None, None => ret 0%Q
  end.

Definition _get_last_alert_seconds : Py (option Q) :=
  m <- get_self ;;
  match last_alert_date m with
  | Some a => now <- timezone_now ;; ret (Some (total_seconds (now - a)))
  | None => ret None
  end.

Definition _get_inactive_interval : Py string :=
  seconds <- _get_inactive_seconds ;;
  ret (convert_seconds seconds).

Definition _is_overdue : Py bool :=
  inactive <- _get_inactive_seconds ;;
  interval <- _get_interval_in_seconds ;;
  ret (Qgt_bool inactive (inject_Z interval)).

Definition _get_interval_start : Py datetime :=
  seconds <- _get_interval_in_seconds ;;
  now <- timezone_now ;;
  ret (now - timedelta_of_seconds seconds).

(** A [datetime] is always true in Python 3, so [self.last_healthy and ...]
    tests that [last_healthy] is not [None]. *)
Definition _get_query_start_time : Py datetime :=
  interval_start <- _get_interval_start ;;
  m <- get_self ;;
  match last_healthy m with
  | Some h => if h <? interval_start then ret h else ret interval_start
  | None => ret interval_start
  end.

Definition _get_query (date_field : string) : Py EngineQuery :=
  start_time <- _get_query_start_time ;;
  ret {| field_name := date_field; value := start_time |}.

Definition _get_sorter (date_field : string) : Sorter :=
  {| sort_field := date_field |}.

Definition _get_most_recent_doc (distillery : Distillery.t)
    : Py (option Doc.t) :=
  match Distillery.searchable_date_field distillery with
  | Some date_field =>
      if truthy_str (Some date_field) then
        query <- _get_query date_field ;;
        let sorter := _get_sorter date_field in
        match find distillery query sorter with
        | doc :: _ => ret (Some doc)
        | [] => ret None
        end
      else ret None
  | None => ret None
  end.

(** [self.last_healthy is None or date > self.last_healthy] *)
Definition is_newer (date : datetime) (last : option datetime) : bool :=
  match last with
  | None => true
  | Some h => h <? date
  end.

Definition _update_doc_info_body (distillery : Distillery.t) : Py unit :=
  doc <- _get_most_recent_doc distillery ;;
  match doc with
  | Some doc =>
      let date := get_date distillery doc in
      m <- get_self ;;
      if is_newer date (last_healthy m) then
        assign (set_doc_info (Some date) (Some (Distillery.pk distillery))
                  (Doc._id doc))
      else ret tt
  | None => ret tt
  end.

Definition _update_doc_info : Py unit :=
  ds <- distilleries_all ;;
  for_each _update_doc_info_body ds.

Definition _set_current_status : Py string :=
  is_overdue <- _is_overdue ;;
  (if is_overdue : bool then assign (set_status _UNHEALTHY)
   else assign (set_status _HEALTHY)) ;;
  m <- get_self ;;
  ret (status m).

Definition dquote : string := String "034"%char EmptyString.

Definition _get_title : Py string :=
  downtime <- _get_inactive_interval ;;
  m <- get_self ;;
  ret ("Health monitor " ++ dquote ++ name m ++ dquote
       ++ " has seen no activity for over " ++ downtime ++ ".")%string.

Definition _alert_due : Py bool :=
  last_alert_time <- _get_last_alert_seconds ;;
  match last_alert_time with
  | Some t =>
      if truthy_num (Some t) then
        interval <- _get_interval_in_seconds ;;
        ret (Qgt_bool t (inject_Z interval))
      else ret true
  | None => ret true
  end.

Definition _create_alert : Py Alert.t :=
  title <- _get_title ;;
  m <- get_self ;;
  Alert_save title (alert_level m) (id m) (last_active_distillery m)
    (last_saved_doc m).

Definition _update_fields : Py unit :=
  m <- get_self ;;
  (if truthy_int (id m) then _update_doc_info else ret tt) ;;
  _set_current_status ;;
  ret tt.

Definition save : Py unit :=
  _update_fields ;;
  Model_save.

(** [a and b] evaluates [b] only when [a] is true. *)
Definition _alert (old_status : string) : Py unit :=
  m <- get_self ;;
  repeat_alert <- (if repeating_alerts m then _alert_due else ret false) ;;
  let status_changed := negb (String.eqb old_status _UNHEALTHY) in
  if alerts_enabled m && (repeat_alert || status_changed) then
    alert <- _create_alert ;;
    assign (set_last_alert_date (Some (Alert.created_date alert))) ;;
    assign (set_last_alert_id (Some (Alert.pk alert))) ;;
    save
  else ret tt.

Definition update_status : Py unit :=
  m <- get_self ;;
  let old_status := status m in
  save ;;
  m' <- get_self ;;
  if String.eqb (status m') _UNHEALTHY then _alert old_status else ret tt.

End MonitorMethods.

(** ** A concrete setting for examples *)

(** The usual table of time units, as an instance of
    [convert_time_to_seconds]. *)
Definition seconds_per_unit (n : Z) (u : string) : Z :=
  if String.eqb u "s" then n
  else if String.eqb u "m" then n * 60
  else if String.eqb u "h" then n * 3600
  else if String.eqb u "d" then n * 86400
  else 0.

(** A saved monitor named "web" with an interval of 60 seconds, created at
    time 0, that has seen no activity and raised no alert. *)
Definition web_monitor : Monitor :=
  {| id := Some 1; name := "web"; enabled := true;
     time_interval := 60; time_unit := "s";
     alerts_enabled := true; repeating_alerts := false;
     alert_level := "HIGH";
     last_alert_date := None; last_alert_id := None;
     status := _HEALTHY; created_date := Some 0;
     last_updated := Some 0; last_healthy := None;
     last_active_distillery := None; last_saved_doc := None |}.

Definition set_last_healthy (v : option datetime) (m : Monitor) : Monitor :=
  set_doc_info v (last_active_distillery m) (last_saved_doc m) m.

(** A world whose clock always reads [now] seconds, that watches [ds] and
    whose alert table is empty and up. *)
Definition world_at (now : Z) (m : Monitor) (ds : list Distillery.t)
    : State :=
  {| self := m; clock := fun _ => now * 1000000; reads := 0%nat;
     distilleries := ds; alert_store_up := true; alerts := [];
     monitors := [m] |}.

(** ** Specification-side definitions *)

(** The rule of the specification for the start of the activity query:
    [lastHealthyAt] when it is set and not before the interval start, the
    interval start otherwise. *)
Definition spec_query_start (last : option datetime)
    (interval_start : datetime) : datetime :=
  match last with
  | Some h => if interval_start <=? h then h else interval_start
  | None => interval_start
  end.

(** The inactivity the specification defines: [now - lastHealthy] when it
    is set, else [now - createdDate], else 0. *)
Definition inactive_seconds_at (m : Monitor) (now : datetime) : Q :=
  match last_healthy m with
  | Some h => total_seconds (now - h)
  | None =>
      match created_date m with
      | Some c => total_seconds (now - c)
      | None => 0%Q
      end
  end.

(** ** Definitions used to state the properties of the activity scan *)

(** Everything of the world but the object [self] and the count of clock
    reads is the same in [s] and [s']. *)
Definition env_eq (s s' : State) : Prop :=
  clock s' = clock s /\
  distilleries s' = distilleries s /\
  alert_store_up s' = alert_store_up s /\
  alerts s' = alerts s /\
  monitors s' = monitors s.

(** [m'] is [m] but for [last_healthy], [last_active_distillery] and
    [last_saved_doc]. *)
Definition same_but_doc_info (m m' : Monitor) : Prop :=
  m' = set_doc_info (last_healthy m') (last_active_distillery m')
         (last_saved_doc m') m.

(** The order of [last_healthy] values: unset comes before any date. *)
Definition lh_le (a b : option datetime) : Prop :=
  match a, b with
  | None, _ => True
  | Some x, Some y => x <= y
  | Some _, None => False
  end.

(** The three fields describe the document [doc] of distillery [d]. *)
Definition describes (d : Distillery.t) (doc : Doc.t) (m : Monitor) : Prop :=
  last_healthy m = Some (Doc.date doc) /\
  last_active_distillery m = Some (Distillery.pk d) /\
  last_saved_doc m = Doc._id doc.

Definition doc_info_unset (m : Monitor) : Prop :=
  last_healthy m = None /\
  last_active_distillery m = None /\
  last_saved_doc m = None.

Definition same_doc_info (m m' : Monitor) : Prop :=
  last_healthy m' = last_healthy m /\
  last_active_distillery m' = last_active_distillery m /\
  last_saved_doc m' = last_saved_doc m.

(** The newest document of a distillery, the first of them in the
    collection when several share the newest date; none when the
    distillery has no searchable date field. *)
Definition newest (d : Distillery.t) : option Doc.t :=
  if truthy_str (Distillery.searchable_date_field d)
  then hd_error (sort_desc (Distillery.collection d))
  else None.

(** The effect of one pass of the loop of [_update_doc_info] on [self],
    when the interval starts at [interval_start]. *)
Definition advance (interval_start : datetime) (d : Distillery.t)
    (m : Monitor) : Monitor :=
  match newest d with
  | Some doc =>
      if match last_healthy m with
         | Some h => h <? Doc.date doc
         | None => interval_start <? Doc.date doc
         end
      then set_doc_info (Some (Doc.date doc)) (Some (Distillery.pk d))
             (Doc._id doc) m
      else m
  | None => m
  end.

(** The dates of the newest documents of the distilleries that would be
    looked at. *)
Definition newest_dates (ds : list Distillery.t) : list datetime :=
  flat_map (fun d => match newest d with
                     | Some doc => [Doc.date doc]
                     | None => []
                     end) ds.

Section Refresh.

Variable convert_time_to_seconds : Z -> string -> Z.

(** The interval start computed at the [k]-th reading of the clock. *)
Definition interval_start_at (clk : nat -> datetime) (k : nat) (m : Monitor)
    : datetime :=
  clk k - timedelta_of_seconds (interval_of convert_time_to_seconds m).

(** The start time [_get_query_start_time] computes in state [s]. *)
Definition query_start_at (s : State) : datetime :=
  let interval_start :=
    interval_start_at (clock s) (reads s) (self s) in
  match last_healthy (self s) with
  | Some h => if h <? interval_start then h else interval_start
  | None => interval_start
  end.

(** The loop of [_update_doc_info] as a function on [self]: the clock is
    read once for each distillery that has a searchable date field. *)
Fixpoint scan_pure (clk : nat -> datetime) (k : nat)
    (ds : list Distillery.t) (m : Monitor) : Monitor :=
  match ds with
  | [] => m
  | d :: ds' =>
      scan_pure clk
        (if truthy_str (Distillery.searchable_date_field d) then S k else k)
        ds' (advance (interval_start_at clk k m) d m)
  end.

(** One activity scan of monitor [m] in the world [w]. *)
Definition refresh (w : State) (m : Monitor) : Monitor :=
  self (after (_update_doc_info convert_time_to_seconds) (with_self m w)).

(** A sequence of activity scans, each in a world of its own. *)
Definition refreshes (ws : list State) (m : Monitor) : Monitor :=
  fold_left (fun m w => refresh w m) ws m.

End Refresh.

(** The three fields describe one document of a distillery watched in
    one of the worlds [ws]. *)
Definition from_one_record (ws : list State) (m : Monitor) : Prop :=
  exists w d doc,
    In w ws /\ In d (distilleries w) /\
    In doc (Distillery.collection d) /\ describes d doc m.

(** Two distilleries: [sink_a], whose newest document "a2" is dated 10 s,
    and [sink_b], whose newest document "b1" is dated 5 s. *)
Definition sink_a : Distillery.t :=
  {| Distillery.pk := 1; Distillery.searchable_date_field := Some "date"%string;
     Distillery.collection :=
       [ {| Doc._id := Some "a1"%string; Doc.date := 2000000 |};
         {| Doc._id := Some "a2"%string; Doc.date := 10000000 |} ] |}.

Definition sink_b : Distillery.t :=
  {| Distillery.pk := 2; Distillery.searchable_date_field := Some "date"%string;
     Distillery.collection :=
       [ {| Doc._id := Some "b1"%string; Doc.date := 5000000 |} ] |}.

(** A distillery whose newest document "c1" is dated 10 s, like [sink_a]'s. *)
Definition sink_c : Distillery.t :=
  {| Distillery.pk := 3; Distillery.searchable_date_field := Some "date"%string;
     Distillery.collection :=
       [ {| Doc._id := Some "c1"%string; Doc.date := 10000000 |} ] |}.

Definition with_distilleries (ds : list Distillery.t) (s : State) : State :=
  {| self := self s; clock := clock s; reads := reads s;
     distilleries := ds; alert_store_up := alert_store_up s;
     alerts := alerts s; monitors := monitors s |}.

(** A scan all of whose passes see the interval start [i]. *)
Definition scan_at (i : datetime) (ds : list Distillery.t) (m : Monitor)
    : Monitor :=
  fold_left (fun m d => advance i d m) ds m.

(** The effect of one pass on [last_healthy] alone. *)
Definition lh_step (i : datetime) (o : option datetime) (d : Distillery.t)
    : option datetime :=
  match newest d with
  | Some doc =>
      if match o with
         | Some h => h <? Doc.date doc
         | None => i <? Doc.date doc
         end
      then Some (Doc.date doc) else o
  | None => o
  end.

(** ** Definitions used to state the properties of saving and alerting *)

(** The fields a user configures are the same in [m] and [m']. *)
Definition config_eq (m m' : Monitor) : Prop :=
  name m' = name m /\
  enabled m' = enabled m /\
  time_interval m' = time_interval m /\
  time_unit m' = time_unit m /\
  alerts_enabled m' = alerts_enabled m /\
  repeating_alerts m' = repeating_alerts m /\
  alert_level m' = alert_level m.

(** The alert bookkeeping is the same in [m] and [m']. *)
Definition alert_info_eq (m m' : Monitor) : Prop :=
  last_alert_date m' = last_alert_date m /\
  last_alert_id m' = last_alert_id m.

(** The title of an alert for a monitor named [n] that has been down for
    [downtime]. *)
Definition title_for (n downtime : string) : string :=
  ("Health monitor " ++ String "034"%char EmptyString ++ n
   ++ String "034"%char EmptyString
   ++ " has seen no activity for over " ++ downtime ++ ".")%string.

Section Policy.

Variable convert_time_to_seconds : Z -> string -> Z.

(** The status [_set_current_status] gives monitor [m] when the clock
    reads [now]. *)
Definition status_at (m : Monitor) (now : datetime) : string :=
  if Qgt_bool (inactive_seconds_at m now)
       (inject_Z (interval_of convert_time_to_seconds m))
  then _UNHEALTHY else _HEALTHY.

(** The state in which [_update_fields] evaluates the status: after the
    activity scan when the monitor has an id, the state it starts in
    otherwise. *)
Definition scanned (s : State) : State :=
  if truthy_int (id (self s))
  then after (_update_doc_info convert_time_to_seconds) s
  else s.

(** What [_alert_due] answers for monitor [m] when the clock reads [now]. *)
Definition alert_due_at (m : Monitor) (now : datetime) : bool :=
  match last_alert_date m with
  | None => true
  | Some a =>
      if now - a =? 0 then true
      else Qgt_bool (total_seconds (now - a))
             (inject_Z (interval_of convert_time_to_seconds m))
  end.

(** The decision of [_alert] in state [s] for the previous status
    [old_status]. *)
Definition should_alert (old_status : string) (s : State) : bool :=
  alerts_enabled (self s)
  && ((repeating_alerts (self s)
       && alert_due_at (self s) (clock s (reads s)))
      || negb (String.eqb old_status _UNHEALTHY)).

End Policy.

(** ** Further monitors for examples *)

(** A monitor that was never saved. *)
Definition new_monitor : Monitor :=
  {| id := None; name := "new"; enabled := true;
     time_interval := 5; time_unit := "m";
     alerts_enabled := true; repeating_alerts := false;
     alert_level := "LOW";
     last_alert_date := None; last_alert_id := None;
     status := ""; created_date := None;
     last_updated := None; last_healthy := None;
     last_active_distillery := None; last_saved_doc := None |}.

(** The monitor "web" with its alerts disabled. *)
Definition quiet_monitor : Monitor :=
  {| id := Some 1; name := "web"; enabled := true;
     time_interval := 60; time_unit := "s";
     alerts_enabled := false; repeating_alerts := false;
     alert_level := "HIGH";
     last_alert_date := None; last_alert_id := None;
     status := _HEALTHY; created_date := Some 0;
     last_updated := Some 0; last_healthy := None;
     last_active_distillery := None; last_saved_doc := None |}.

(** The monitor "web" with repeating alerts, unhealthy, whose last alert,
    number 1, was raised at 61 s. *)
Definition repeating_monitor : Monitor :=
  {| id := Some 1; name := "web"; enabled := true;
     time_interval := 60; time_unit := "s";
     alerts_enabled := true; repeating_alerts := true;
     alert_level := "HIGH";
     last_alert_date := Some 61000000; last_alert_id := Some 1;
     status := _UNHEALTHY; created_date := Some 0;
     last_updated := Some 61000000; last_healthy := None;
     last_active_distillery := None; last_saved_doc := None |}.

(** * Properties *)

(** ** Status evaluation and query window *)

Section Evaluation.

Variable convert_time_to_seconds : Z -> string -> Z.

Lemma Qgt_bool_iff (a b : Q) : Qgt_bool a b = true <-> (b < a)%Q.
Proof.
  unfold Qgt_bool. rewrite negb_true_iff.
  split; intro H.
  - apply Qnot_le_lt. intro Hle. apply Qle_bool_iff in Hle. congruence.
  - destruct (Qle_bool a b) eqn:E; [|reflexivity].
    apply Qle_bool_iff in E. exfalso. exact (Qlt_not_le _ _ H E).
Qed.

Lemma _get_interval_start_run (s : State) :
  _get_interval_start convert_time_to_seconds s =
  (Return
     (clock s (reads s)
      - timedelta_of_seconds
          (interval_of convert_time_to_seconds (self s))),
   with_reads (S (reads s)) s).
Proof. reflexivity. Qed.

Lemma _get_query_start_time_run (s : State) :
  _get_query_start_time convert_time_to_seconds s =
  (Return
     (let interval_start :=
        clock s (reads s)
        - timedelta_of_seconds
            (interval_of convert_time_to_seconds (self s)) in
      match last_healthy (self s) with
      | Some h => if h <? interval_start then h else interval_start
      | None => interval_start
      end),
   with_reads (S (reads s)) s).
Proof.
  unfold _get_query_start_time, bind. rewrite _get_interval_start_run.
  simpl. destruct (last_healthy (self s)) as [h|]; [|reflexivity].
  destruct (h <? _); reflexivity.
Qed.

(** C1, as amended. The start time of the activity query is [last_healthy]
    when it is set and strictly earlier than the interval start
    [now - interval], and the interval start otherwise: the older of the
    two. The start time is therefore never later than the interval start. *)
Theorem query_start_time_is_the_older (s : State) :
  let interval_start :=
    clock s (reads s)
    - timedelta_of_seconds (interval_of convert_time_to_seconds (self s)) in
  exists start,
    result (_get_query_start_time convert_time_to_seconds) s = Return start /\
    result (_get_interval_start convert_time_to_seconds) s
      = Return interval_start /\
    start = match last_healthy (self s) with
            | Some h => if h <? interval_start then h else interval_start
            | None => interval_start
            end /\
    start = match last_healthy (self s) with
            | Some h => Z.min h interval_start
            | None => interval_start
            end /\
    start <= interval_start.
Proof.
  intros interval_start. eexists.
  unfold result. rewrite _get_query_start_time_run, _get_interval_start_run.
  simpl. fold interval_start.
  split; [reflexivity|]. split; [reflexivity|]. split; [reflexivity|].
  destruct (last_healthy (self s)) as [h|]; [|split; [reflexivity|lia]].
  destruct (Z.ltb_spec h interval_start); split; lia.
Qed.

End Evaluation.

(** C1, counterexample. Interval 60 s, now = 1000 s, so the interval starts
    at 940 s; [last_healthy] = 100 s is older than that. The specification's
    rule gives the interval start, 940 s; the code queries from 100 s, which
    is earlier than the interval start. *)
Lemma query_start_time_before_interval_start :
  let s := world_at 1000 (set_last_healthy (Some 100000000) web_monitor) [] in
  result (_get_interval_start seconds_per_unit) s = Return 940000000 /\
  spec_query_start (last_healthy (self s)) 940000000 = 940000000 /\
  result (_get_query_start_time seconds_per_unit) s = Return 100000000 /\
  result (_get_query_start_time seconds_per_unit) s
    <> Return (spec_query_start (last_healthy (self s)) 940000000) /\
  100000000 < 940000000.
Proof.
  cbv zeta. repeat split; try reflexivity; try lia.
  vm_compute. discriminate.
Qed.

Section StatusEvaluation.

Variable convert_time_to_seconds : Z -> string -> Z.

Lemma with_reads_same (s : State) : with_reads (reads s) s = s.
Proof. destruct s; reflexivity. Qed.

Lemma _get_inactive_seconds_run (s : State) :
  exists k,
    _get_inactive_seconds s =
    (Return (inactive_seconds_at (self s) (clock s (reads s))),
     with_reads k s).
Proof.
  unfold _get_inactive_seconds, inactive_seconds_at, bind, get_self.
  destruct (last_healthy (self s)) as [h|].
  - exists (S (reads s)). reflexivity.
  - destruct (created_date (self s)) as [c|].
    + exists (S (reads s)). reflexivity.
    + exists (reads s). rewrite with_reads_same. reflexivity.
Qed.

Lemma _is_overdue_run (s : State) :
  exists k,
    _is_overdue convert_time_to_seconds s =
    (Return
       (Qgt_bool (inactive_seconds_at (self s) (clock s (reads s)))
          (inject_Z (interval_of convert_time_to_seconds (self s)))),
     with_reads k s).
Proof.
  destruct (_get_inactive_seconds_run s) as [k Hk].
  exists k. unfold _is_overdue, bind. rewrite Hk. reflexivity.
Qed.

Lemma _set_current_status_run (s : State) :
  exists k,
    _set_current_status convert_time_to_seconds s =
    (let st :=
       if Qgt_bool (inactive_seconds_at (self s) (clock s (reads s)))
            (inject_Z (interval_of convert_time_to_seconds (self s)))
       then _UNHEALTHY else _HEALTHY in
     (Return st, with_self (set_status st (self s)) (with_reads k s))).
Proof.
  destruct (_is_overdue_run s) as [k Hk].
  exists k. unfold _set_current_status, bind. rewrite Hk.
  destruct (Qgt_bool _ _); reflexivity.
Qed.

(** C2. After [_set_current_status] the status is unhealthy exactly when
    the inactivity exceeds the interval, strictly, where the inactivity is
    [now - last_healthy] when [last_healthy] is set, else
    [now - created_date], else 0. It is healthy exactly when the inactivity
    is at most the interval, which includes the case of equality. *)
Theorem status_unhealthy_iff_overdue (s : State) :
  let now := clock s (reads s) in
  let inactive := inactive_seconds_at (self s) now in
  let interval := inject_Z (interval_of convert_time_to_seconds (self s)) in
  let s' := after (_set_current_status convert_time_to_seconds) s in
  result (_set_current_status convert_time_to_seconds) s
    = Return (status (self s')) /\
  (status (self s') = _UNHEALTHY <-> (interval < inactive)%Q) /\
  (status (self s') = _HEALTHY <-> (inactive <= interval)%Q).
Proof.
  intros now inactive interval s'.
  destruct (_set_current_status_run s) as [k Hk].
  unfold s', result, after. rewrite Hk. cbv zeta.
  fold now. fold inactive. fold interval.
  destruct (Qgt_bool inactive interval) eqn:E; simpl.
  - apply Qgt_bool_iff in E.
    split; [reflexivity|]. split.
    + split; auto.
    + split; [discriminate|]. intro Hle. exfalso.
      exact (Qlt_not_le _ _ E Hle).
  - assert (Hn : ~ (interval < inactive)%Q).
    { intro Hlt. apply Qgt_bool_iff in Hlt. congruence. }
    split; [reflexivity|]. split.
    + split; [discriminate|]. intro Hlt. contradiction.
    + split; [|reflexivity]. intros _. apply Qnot_lt_le. exact Hn.
Qed.

Lemma total_seconds_zero (e : timedelta) :
  Qeq_bool (total_seconds e) 0 = (e =? 0).
Proof.
  destruct (Z.eqb_spec e 0) as [->|Hne].
  - reflexivity.
  - destruct (Qeq_bool (total_seconds e) 0) eqn:E; [|reflexivity].
    apply Qeq_bool_iff in E. unfold Qeq, total_seconds in E. simpl in E. lia.
Qed.

(** What [_alert_due] computes: true without a previous alert, true when
    no time at all has passed since the last alert, and otherwise whether
    the time since the last alert exceeds the interval. *)
Lemma _alert_due_run (s : State) :
  exists k,
    _alert_due convert_time_to_seconds s =
    (Return
       match last_alert_date (self s) with
       | None => true
       | Some a =>
           let elapsed := clock s (reads s) - a in
           if elapsed =? 0 then true
           else Qgt_bool (total_seconds elapsed)
                  (inject_Z (interval_of convert_time_to_seconds (self s)))
       end,
     with_reads k s).
Proof.
  unfold _alert_due, _get_last_alert_seconds, bind, get_self.
  destruct (last_alert_date (self s)) as [a|].
  - exists (S (reads s)). simpl.
    rewrite total_seconds_zero.
    destruct (clock s (reads s) - a =? 0); reflexivity.
  - exists (reads s). rewrite with_reads_same. reflexivity.
Qed.

End StatusEvaluation.

(** C3, the input on which the code departs from the claim. A monitor with
    an interval of 60 s raised its last alert at 1000 s, and the clock
    reads 1000 s: zero seconds have passed, which does not exceed the
    interval, yet [_alert_due] answers true, because the elapsed time 0 is
    false as a Python condition and the branch for a monitor that never
    raised an alert is taken. *)
Theorem alert_due_at_zero_elapsed :
  let s :=
    world_at 1000 (set_last_alert_date (Some 1000000000) web_monitor) [] in
  result _get_last_alert_seconds s = Return (Some (total_seconds 0)) /\
  Qgt_bool (total_seconds 0)
    (inject_Z (interval_of seconds_per_unit (self s))) = false /\
  result (_alert_due seconds_per_unit) s = Return true.
Proof. cbv zeta. repeat split. Qed.

(** ** The activity scan *)

Section ActivityScan.

Variable convert_time_to_seconds : Z -> string -> Z.

Lemma with_self_same (s : State) : with_self (self s) s = s.
Proof. destruct s; reflexivity. Qed.

Lemma hd_sort_cons (x : Doc.t) (l : list Doc.t) :
  hd_error (sort_desc (x :: l)) =
  match hd_error (sort_desc l) with
  | Some y => if Doc.date x <? Doc.date y then Some y else Some x
  | None => Some x
  end.
Proof.
  simpl. destruct (sort_desc l) as [|y l']; simpl; [reflexivity|].
  destruct (Doc.date x <? Doc.date y); reflexivity.
Qed.

Lemma hd_sort_In (l : list Doc.t) (y : Doc.t) :
  hd_error (sort_desc l) = Some y ->
  In y l /\ forall z, In z l -> Doc.date z <= Doc.date y.
Proof.
  revert y. induction l as [|x l IH]; intros y H.
  - discriminate.
  - rewrite hd_sort_cons in H.
    destruct (hd_error (sort_desc l)) as [y0|] eqn:E.
    + destruct (IH y0 eq_refl) as [Hin Hmax].
      destruct (Z.ltb_spec (Doc.date x) (Doc.date y0));
        inversion H; subst; split.
      * right; exact Hin.
      * intros z [<-|Hz]; [lia|apply Hmax; exact Hz].
      * left; reflexivity.
      * intros z [<-|Hz]; [lia|]. specialize (Hmax z Hz). lia.
    + inversion H; subst. split; [left; reflexivity|].
      destruct l as [|x' l'].
      * intros z [<-|[]]. lia.
      * exfalso. rewrite hd_sort_cons in E.
        destruct (hd_error (sort_desc l')); [|discriminate].
        destruct (_ <? _); discriminate.
Qed.

Lemma hd_sort_filter (start : datetime) (l : list Doc.t) :
  hd_error (sort_desc (filter (fun doc => start <? Doc.date doc) l)) =
  match hd_error (sort_desc l) with
  | Some y => if start <? Doc.date y then Some y else None
  | None => None
  end.
Proof.
  induction l as [|x l IH]; [reflexivity|].
  rewrite hd_sort_cons. cbn [filter].
  destruct (Z.ltb_spec start (Doc.date x)) as [Hx|Hx].
  - rewrite hd_sort_cons, IH.
    destruct (hd_error (sort_desc l)) as [y|].
    + destruct (Z.ltb_spec start (Doc.date y)) as [Hy|Hy].
      * destruct (Z.ltb_spec (Doc.date x) (Doc.date y)).
        -- destruct (Z.ltb_spec start (Doc.date y)); [reflexivity|lia].
        -- destruct (Z.ltb_spec start (Doc.date x)); [reflexivity|lia].
      * destruct (Z.ltb_spec (Doc.date x) (Doc.date y)); [lia|].
        destruct (Z.ltb_spec start (Doc.date x)); [reflexivity|lia].
    + destruct (Z.ltb_spec start (Doc.date x)); [reflexivity|lia].
  - rewrite IH.
    destruct (hd_error (sort_desc l)) as [y|].
    + destruct (Z.ltb_spec (Doc.date x) (Doc.date y)); [reflexivity|].
      destruct (Z.ltb_spec start (Doc.date y)); [lia|].
      destruct (Z.ltb_spec start (Doc.date x)); [lia|reflexivity].
    + destruct (Z.ltb_spec start (Doc.date x)); [lia|reflexivity].
Qed.

Lemma firstn_1_hd (A : Type) (l : list A) :
  firstn 1 l = match hd_error l with Some x => [x] | None => [] end.
Proof. destruct l; reflexivity. Qed.

(** What the query of one distillery returns. *)
Lemma find_newest (d : Distillery.t) (f : string) (start : datetime) :
  find d {| field_name := f; value := start |} (_get_sorter f) =
  match hd_error (sort_desc (Distillery.collection d)) with
  | Some doc => if start <? Doc.date doc then [doc] else []
  | None => []
  end.
Proof.
  unfold find. rewrite firstn_1_hd. cbn [value]. rewrite hd_sort_filter.
  destruct (hd_error (sort_desc (Distillery.collection d))) as [y|];
    [|reflexivity].
  destruct (start <? Doc.date y); reflexivity.
Qed.

Lemma _get_most_recent_doc_run (d : Distillery.t) (s : State) :
  _get_most_recent_doc convert_time_to_seconds d s =
  (Return
     match newest d with
     | Some doc =>
         if query_start_at convert_time_to_seconds s <? Doc.date doc
         then Some doc else None
     | None => None
     end,
   with_reads
     (if truthy_str (Distillery.searchable_date_field d)
      then S (reads s) else reads s) s).
Proof.
  unfold _get_most_recent_doc, newest.
  destruct (Distillery.searchable_date_field d) as [f|] eqn:Ef.
  - destruct (truthy_str (Some f)) eqn:Et.
    + unfold _get_query, bind.
      rewrite _get_query_start_time_run. cbv zeta.
      fold (interval_start_at convert_time_to_seconds (clock s) (reads s)
              (self s)).
      fold (query_start_at convert_time_to_seconds s).
      unfold ret. rewrite find_newest.
      destruct (hd_error (sort_desc (Distillery.collection d))) as [y|];
        [|reflexivity].
      destruct (query_start_at convert_time_to_seconds s <? Doc.date y);
        reflexivity.
    + rewrite with_reads_same. reflexivity.
  - simpl. rewrite with_reads_same. reflexivity.
Qed.

Lemma interval_of_set_doc_info h a b (m : Monitor) :
  interval_of convert_time_to_seconds (set_doc_info h a b m) =
  interval_of convert_time_to_seconds m.
Proof. reflexivity. Qed.

Lemma interval_of_advance (i : datetime) (d : Distillery.t) (m : Monitor) :
  interval_of convert_time_to_seconds (advance i d m) =
  interval_of convert_time_to_seconds m.
Proof.
  unfold advance. destruct (newest d); [|reflexivity].
  destruct (match last_healthy m with Some _ => _ | None => _ end);
    reflexivity.
Qed.

(** One pass of the loop: the document the query returns is newer than
    [last_healthy] exactly when the newest document of the distillery is,
    since the query never starts later than [last_healthy]. *)
Lemma _update_doc_info_body_run (d : Distillery.t) (s : State) :
  _update_doc_info_body convert_time_to_seconds d s =
  (Return tt,
   with_self
     (advance
        (interval_start_at convert_time_to_seconds (clock s) (reads s)
           (self s)) d (self s))
     (with_reads
        (if truthy_str (Distillery.searchable_date_field d)
         then S (reads s) else reads s) s)).
Proof.
  unfold _update_doc_info_body, bind.
  rewrite _get_most_recent_doc_run.
  unfold advance, query_start_at. cbv zeta.
  set (i := interval_start_at convert_time_to_seconds (clock s) (reads s)
              (self s)).
  set (k := if truthy_str _ then _ else _).
  destruct (newest d) as [doc|];
    [|rewrite <- (with_self_same (with_reads k s)) at 1; reflexivity].
  unfold get_date, get_self, is_newer, bind, assign, ret.
  destruct (last_healthy (self s)) as [h|] eqn:Eh.
  - match goal with |- context [?c <? Doc.date doc] =>
      destruct (Z.ltb_spec c (Doc.date doc)) as [Hq|Hq] end;
      cbn [self with_reads]; try rewrite Eh.
    + destruct (Z.ltb_spec h (Doc.date doc)); [reflexivity|].
      rewrite <- (with_self_same (with_reads k s)) at 1; reflexivity.
    + destruct (Z.ltb_spec h (Doc.date doc)) as [Hn|Hn].
      * exfalso. destruct (Z.ltb_spec h i); lia.
      * rewrite <- (with_self_same (with_reads k s)) at 1; reflexivity.
  - destruct (i <? Doc.date doc); cbn [self with_reads]; try rewrite Eh.
    + reflexivity.
    + rewrite <- (with_self_same (with_reads k s)) at 1; reflexivity.
Qed.

Lemma for_each_body_run (ds : list Distillery.t) (s : State) :
  exists k,
    for_each (_update_doc_info_body convert_time_to_seconds) ds s =
    (Return tt,
     with_self
       (scan_pure convert_time_to_seconds (clock s) (reads s) ds (self s))
       (with_reads k s)).
Proof.
  revert s. induction ds as [|d ds IH]; intros s.
  - exists (reads s). simpl. rewrite with_reads_same, with_self_same.
    reflexivity.
  - cbn [for_each scan_pure]. unfold bind.
    rewrite _update_doc_info_body_run.
    match goal with |- context [for_each _ ds ?s1] =>
      destruct (IH s1) as [k Hk] end.
    exists k. rewrite Hk. reflexivity.
Qed.

(** The activity scan never raises, and leaves [self] as [scan_pure]
    says. *)
Lemma _update_doc_info_run (s : State) :
  exists k,
    _update_doc_info convert_time_to_seconds s =
    (Return tt,
     with_self
       (scan_pure convert_time_to_seconds (clock s) (reads s)
          (distilleries s) (self s))
       (with_reads k s)).
Proof.
  unfold _update_doc_info, bind, distilleries_all.
  apply for_each_body_run.
Qed.

Lemma refresh_scan_pure (w : State) (m : Monitor) :
  refresh convert_time_to_seconds w m =
  scan_pure convert_time_to_seconds (clock w) (reads w) (distilleries w) m.
Proof.
  unfold refresh, after.
  destruct (_update_doc_info_run (with_self m w)) as [k Hk].
  rewrite Hk. reflexivity.
Qed.

Lemma refreshes_app (ws1 ws2 : list State) (m : Monitor) :
  refreshes convert_time_to_seconds (ws1 ++ ws2) m =
  refreshes convert_time_to_seconds ws2
    (refreshes convert_time_to_seconds ws1 m).
Proof. unfold refreshes. apply fold_left_app. Qed.

Lemma newest_In (d : Distillery.t) (doc : Doc.t) :
  newest d = Some doc -> In doc (Distillery.collection d).
Proof.
  unfold newest. destruct (truthy_str _); [|discriminate].
  intro H. apply hd_sort_In in H. tauto.
Qed.

Lemma lh_le_refl (a : option datetime) : lh_le a a.
Proof. destruct a; simpl; [lia|exact I]. Qed.

Lemma lh_le_trans (a b c : option datetime) :
  lh_le a b -> lh_le b c -> lh_le a c.
Proof.
  destruct a, b, c; simpl; intros H1 H2;
    try exact I; try contradiction; lia.
Qed.

Lemma same_but_doc_info_refl (m : Monitor) : same_but_doc_info m m.
Proof. destruct m; reflexivity. Qed.

Lemma same_but_doc_info_trans (a b c : Monitor) :
  same_but_doc_info a b -> same_but_doc_info b c -> same_but_doc_info a c.
Proof.
  unfold same_but_doc_info. intros Hab Hbc.
  rewrite Hbc at 1. rewrite Hab. reflexivity.
Qed.

(** One pass either leaves [self] alone or stores the newest document of
    the distillery, whose date is then strictly later than [last_healthy]
    was (or [last_healthy] was unset). *)
Lemma advance_cases (i : datetime) (d : Distillery.t) (m : Monitor) :
  advance i d m = m \/
  exists doc,
    newest d = Some doc /\
    is_newer (Doc.date doc) (last_healthy m) = true /\
    advance i d m =
    set_doc_info (Some (Doc.date doc)) (Some (Distillery.pk d))
      (Doc._id doc) m.
Proof.
  unfold advance, is_newer.
  destruct (newest d) as [doc|]; [|left; reflexivity].
  destruct (last_healthy m) as [h|].
  - destruct (h <? Doc.date doc) eqn:E; [|left; reflexivity].
    right. exists doc. auto.
  - destruct (i <? Doc.date doc) eqn:E; [|left; reflexivity].
    right. exists doc. auto.
Qed.

Lemma advance_frame (i : datetime) (d : Distillery.t) (m : Monitor) :
  same_but_doc_info m (advance i d m).
Proof.
  destruct (advance_cases i d m) as [->|(doc & _ & _ & ->)].
  - apply same_but_doc_info_refl.
  - reflexivity.
Qed.

Lemma advance_mono (i : datetime) (d : Distillery.t) (m : Monitor) :
  lh_le (last_healthy m) (last_healthy (advance i d m)).
Proof.
  destruct (advance_cases i d m) as [->|(doc & _ & Hn & ->)].
  - apply lh_le_refl.
  - cbn [last_healthy set_doc_info]. unfold is_newer in Hn.
    destruct (last_healthy m); simpl; [|exact I].
    apply Z.ltb_lt in Hn. lia.
Qed.

Lemma scan_pure_frame clk (ds : list Distillery.t) :
  forall k m,
    same_but_doc_info m (scan_pure convert_time_to_seconds clk k ds m).
Proof.
  induction ds as [|d ds IH]; intros k m; cbn [scan_pure].
  - apply same_but_doc_info_refl.
  - eapply same_but_doc_info_trans; [apply advance_frame|apply IH].
Qed.

Lemma scan_pure_mono clk (ds : list Distillery.t) :
  forall k m,
    lh_le (last_healthy m)
      (last_healthy (scan_pure convert_time_to_seconds clk k ds m)).
Proof.
  induction ds as [|d ds IH]; intros k m; cbn [scan_pure].
  - apply lh_le_refl.
  - eapply lh_le_trans; [apply advance_mono|apply IH].
Qed.

Lemma is_newer_mono (date : datetime) (a b : option datetime) :
  lh_le a b -> is_newer date b = true -> is_newer date a = true.
Proof.
  unfold is_newer, lh_le. destruct a, b; intros Hle Hn;
    try reflexivity; try contradiction.
  apply Z.ltb_lt in Hn. apply Z.ltb_lt. lia.
Qed.

(** A scan either leaves [self] alone or ends with the three fields taken
    from one document of one watched distillery, newer than [last_healthy]
    was before the scan. *)
Lemma scan_pure_cases clk (ds : list Distillery.t) :
  forall k m,
    let m' := scan_pure convert_time_to_seconds clk k ds m in
    m' = m \/
    exists d doc,
      In d ds /\ In doc (Distillery.collection d) /\
      describes d doc m' /\
      is_newer (Doc.date doc) (last_healthy m) = true.
Proof.
  induction ds as [|d ds IH]; intros k m; cbn [scan_pure].
  - left. reflexivity.
  - cbv zeta.
    set (k' := if truthy_str _ then _ else _).
    set (m1 := advance _ d m).
    destruct (IH k' m1) as [Heq|(d' & doc & Hd & Hdoc & Hdesc & Hn)].
    + rewrite Heq. unfold m1.
      destruct (advance_cases
                  (interval_start_at convert_time_to_seconds clk k m) d m)
        as [->|(doc & Hnew & Hn & ->)].
      * left. reflexivity.
      * right. exists d, doc.
        split; [left; reflexivity|].
        split; [apply newest_In; exact Hnew|].
        split; [repeat split|exact Hn].
    + right. exists d', doc.
      split; [right; exact Hd|]. split; [exact Hdoc|].
      split; [exact Hdesc|].
      eapply is_newer_mono; [|exact Hn]. apply advance_mono.
Qed.

End ActivityScan.

Section ScanProperties.

Variable convert_time_to_seconds : Z -> string -> Z.

Lemma refresh_mono (w : State) (m : Monitor) :
  lh_le (last_healthy m) (last_healthy (refresh convert_time_to_seconds w m)).
Proof. rewrite refresh_scan_pure. apply scan_pure_mono. Qed.

Lemma refreshes_mono (ws : list State) (m : Monitor) :
  lh_le (last_healthy m)
    (last_healthy (refreshes convert_time_to_seconds ws m)).
Proof.
  revert m. induction ws as [|w ws IH]; intros m.
  - apply lh_le_refl.
  - change (refreshes convert_time_to_seconds (w :: ws) m)
      with (refreshes convert_time_to_seconds ws
              (refresh convert_time_to_seconds w m)).
    apply lh_le_trans
      with (last_healthy (refresh convert_time_to_seconds w m));
      [apply refresh_mono|apply IH].
Qed.

(** C5. [last_healthy] never moves backwards. Along any sequence of
    activity scans, each in a world of its own, its value after a longer
    run of scans is not before its value after a shorter one. One scan
    leaves it as it was or sets it to the date of a document of a watched
    distillery that is strictly later than the value before the scan (or
    that value was unset), and so does each pass of the loop. *)
Theorem last_healthy_never_regresses
    (ws1 ws2 : list State) (w s : State) (d : Distillery.t) (m : Monitor) :
  lh_le (last_healthy (refreshes convert_time_to_seconds ws1 m))
    (last_healthy (refreshes convert_time_to_seconds (ws1 ++ ws2) m)) /\
  (last_healthy (refresh convert_time_to_seconds w m) = last_healthy m \/
   exists d' doc,
     In d' (distilleries w) /\ In doc (Distillery.collection d') /\
     last_healthy (refresh convert_time_to_seconds w m) = Some (Doc.date doc) /\
     is_newer (Doc.date doc) (last_healthy m) = true) /\
  (let s' := after (_update_doc_info_body convert_time_to_seconds d) s in
   result (_update_doc_info_body convert_time_to_seconds d) s = Return tt /\
   (last_healthy (self s') = last_healthy (self s) \/
    exists doc,
      In doc (Distillery.collection d) /\
      last_healthy (self s') = Some (Doc.date doc) /\
      is_newer (Doc.date doc) (last_healthy (self s)) = true)).
Proof.
  split; [|split].
  - rewrite refreshes_app. apply refreshes_mono.
  - rewrite refresh_scan_pure.
    destruct (scan_pure_cases convert_time_to_seconds (clock w)
                (distilleries w) (reads w) m)
      as [->|(d' & doc & Hd & Hdoc & (Hlh & _) & Hn)].
    + left. reflexivity.
    + right. exists d', doc. auto.
  - cbv zeta. unfold result, after. rewrite _update_doc_info_body_run.
    cbn [fst snd self with_self]. split; [reflexivity|].
    match goal with |- context [advance ?i d (self s)] =>
      destruct (advance_cases i d (self s)) as [->|(doc & Hnew & Hn & ->)]
    end.
    + left. reflexivity.
    + right. exists doc. split; [apply newest_In; exact Hnew|].
      split; [reflexivity|exact Hn].
Qed.

End ScanProperties.

Section ScanConsistency.

Variable convert_time_to_seconds : Z -> string -> Z.

Lemma describes_set_doc_info (d : Distillery.t) (doc : Doc.t) (m : Monitor) :
  describes d doc
    (set_doc_info (Some (Doc.date doc)) (Some (Distillery.pk d))
       (Doc._id doc) m).
Proof. repeat split. Qed.

(** A scan that ends with [last_healthy] unset changed nothing, and each
    of its passes left [self] as it was. *)
Lemma scan_pure_unset clk (ds : list Distillery.t) :
  forall k m,
    last_healthy (scan_pure convert_time_to_seconds clk k ds m) = None ->
    scan_pure convert_time_to_seconds clk k ds m = m /\
    forall d, In d ds ->
      exists k',
        advance (interval_start_at convert_time_to_seconds clk k' m) d m = m.
Proof.
  induction ds as [|d ds IH]; intros k m H; cbn [scan_pure] in *.
  - split; [reflexivity|]. intros d [].
  - set (k1 := if truthy_str _ then _ else _) in *.
    set (i := interval_start_at convert_time_to_seconds clk k m) in *.
    assert (Hadv : advance i d m = m).
    { destruct (advance_cases i d m) as [E|(doc & _ & _ & E)]; [exact E|].
      exfalso.
      pose proof (scan_pure_mono convert_time_to_seconds clk ds k1
                    (advance i d m)) as Hm.
      rewrite H, E in Hm. exact Hm. }
    rewrite Hadv in *. destruct (IH k1 m H) as [Heq Hall].
    split; [exact Heq|].
    intros d' [<-|Hd'].
    + exists k. exact Hadv.
    + apply Hall. exact Hd'.
Qed.

Lemma refreshes_unset (ws : list State) (m : Monitor) :
  last_healthy (refreshes convert_time_to_seconds ws m) = None ->
  refreshes convert_time_to_seconds ws m = m /\
  forall w, In w ws -> refresh convert_time_to_seconds w m = m.
Proof.
  induction ws as [|w ws IH]; intros H.
  - split; [reflexivity|]. intros w [].
  - change (refreshes convert_time_to_seconds (w :: ws) m)
      with (refreshes convert_time_to_seconds ws
              (refresh convert_time_to_seconds w m)) in *.
    assert (Hw : refresh convert_time_to_seconds w m = m).
    { pose proof (refreshes_mono convert_time_to_seconds ws
                    (refresh convert_time_to_seconds w m)) as Hm.
      rewrite H in Hm.
      destruct (last_healthy (refresh convert_time_to_seconds w m)) eqn:E;
        [contradiction|].
      rewrite refresh_scan_pure in E |- *.
      apply scan_pure_unset in E. apply E. }
    rewrite Hw in *. destruct (IH H) as [Heq Hall].
    split; [exact Heq|]. intros w' [<-|Hw']; [exact Hw|apply Hall; exact Hw'].
Qed.

(** With [last_healthy] unset, a pass that leaves [self] as it was is one
    whose query returned no document. *)
Lemma advance_unset_query (w : State) (k : nat) (d : Distillery.t)
    (m : Monitor) :
  last_healthy m = None ->
  advance (interval_start_at convert_time_to_seconds (clock w) k m) d m = m ->
  result (_get_most_recent_doc convert_time_to_seconds d)
    (with_reads k (with_self m w)) = Return None.
Proof.
  intros Hnone Hadv. unfold result. rewrite _get_most_recent_doc_run.
  cbn [fst]. unfold query_start_at. cbn [self clock reads with_reads with_self].
  rewrite Hnone. unfold advance in Hadv. rewrite Hnone in Hadv.
  destruct (newest d) as [doc|]; [|reflexivity].
  destruct (_ <? Doc.date doc); [|reflexivity].
  exfalso. apply (f_equal last_healthy) in Hadv.
  cbn [last_healthy set_doc_info] in Hadv. congruence.
Qed.

Lemma from_one_record_incl (ws ws' : list State) (m : Monitor) :
  incl ws ws' -> from_one_record ws m -> from_one_record ws' m.
Proof.
  intros Hi (w & d & doc & Hw & H). exists w, d, doc.
  split; [apply Hi; exact Hw|exact H].
Qed.

Lemma refresh_cases (w : State) (m : Monitor) :
  refresh convert_time_to_seconds w m = m \/
  from_one_record [w] (refresh convert_time_to_seconds w m).
Proof.
  rewrite refresh_scan_pure.
  destruct (scan_pure_cases convert_time_to_seconds (clock w)
              (distilleries w) (reads w) m)
    as [E|(d & doc & Hd & Hdoc & Hdesc & _)].
  - left. exact E.
  - right. exists w, d, doc. split; [left; reflexivity|auto].
Qed.

Lemma refreshes_consistent (ws ws0 : list State) (m : Monitor) :
  doc_info_unset m \/ from_one_record ws0 m ->
  doc_info_unset (refreshes convert_time_to_seconds ws m) \/
  from_one_record (ws0 ++ ws) (refreshes convert_time_to_seconds ws m).
Proof.
  revert ws0 m. induction ws as [|w ws IH]; intros ws0 m H.
  - rewrite app_nil_r. exact H.
  - change (refreshes convert_time_to_seconds (w :: ws) m)
      with (refreshes convert_time_to_seconds ws
              (refresh convert_time_to_seconds w m)).
    replace (ws0 ++ w :: ws) with ((ws0 ++ [w]) ++ ws)
      by (rewrite <- app_assoc; reflexivity).
    apply IH.
    destruct (refresh_cases w m) as [->|Hr].
    + destruct H as [H|H]; [left; exact H|right].
      eapply from_one_record_incl; [|exact H]. apply incl_appl, incl_refl.
    + right. eapply from_one_record_incl; [|exact Hr].
      apply incl_appr, incl_refl.
Qed.

(** C10. Starting from a monitor whose three document fields are unset, as
    they are when it is created, after any sequence of activity scans the
    fields are either still all unset or describe one document of one
    watched distillery: [last_healthy] is its date,
    [last_active_distillery] the distillery it came from and
    [last_saved_doc] its id. If [last_healthy] is still unset then all
    three are, and every query of every scan returned nothing. And a scan
    that changes [last_healthy], from any monitor, ends with the three
    fields taken from one document. *)
Theorem doc_info_describes_one_record (ws : list State) (m : Monitor) :
  doc_info_unset m ->
  let m' := refreshes convert_time_to_seconds ws m in
  (doc_info_unset m' \/ from_one_record ws m') /\
  (last_healthy m' = None ->
   doc_info_unset m' /\
   forall w d, In w ws -> In d (distilleries w) ->
     exists k,
       result (_get_most_recent_doc convert_time_to_seconds d)
         (with_reads k (with_self m w)) = Return None) /\
  (forall w0 m0,
     last_healthy (refresh convert_time_to_seconds w0 m0)
       <> last_healthy m0 ->
     from_one_record [w0] (refresh convert_time_to_seconds w0 m0)).
Proof.
  intros Hunset m'. split; [|split].
  - apply (refreshes_consistent ws []). left. exact Hunset.
  - intros Hnone. apply refreshes_unset in Hnone.
    destruct Hnone as [Heq Hall]. unfold m'. rewrite Heq.
    split; [exact Hunset|].
    intros w d Hw Hd. specialize (Hall w Hw).
    rewrite refresh_scan_pure in Hall.
    assert (Hn : last_healthy
                   (scan_pure convert_time_to_seconds (clock w) (reads w)
                      (distilleries w) m) = None)
      by (rewrite Hall; apply Hunset).
    apply scan_pure_unset in Hn. destruct Hn as [_ Hpass].
    destruct (Hpass d Hd) as [k Hk]. exists k.
    apply advance_unset_query; [apply Hunset|exact Hk].
  - intros w0 m0 Hne.
    destruct (refresh_cases w0 m0) as [E|Hr]; [|exact Hr].
    exfalso. apply Hne. rewrite E. reflexivity.
Qed.

End ScanConsistency.

(** An instance of C10: the monitor "web", freshly created, scanned once at
    time 20 s while it watches [sink_a] and [sink_b]. *)
Lemma doc_info_describes_one_record_witness :
  doc_info_unset web_monitor /\
  (let ws := [world_at 20 web_monitor [sink_a; sink_b]] in
   let m' := refreshes seconds_per_unit ws web_monitor in
   (doc_info_unset m' \/ from_one_record ws m') /\
   (last_healthy m' = None ->
    doc_info_unset m' /\
    forall w d, In w ws -> In d (distilleries w) ->
      exists k,
        result (_get_most_recent_doc seconds_per_unit d)
          (with_reads k (with_self web_monitor w)) = Return None) /\
   (forall w0 m0,
      last_healthy (refresh seconds_per_unit w0 m0) <> last_healthy m0 ->
      from_one_record [w0] (refresh seconds_per_unit w0 m0))).
Proof.
  split.
  - repeat split.
  - apply (doc_info_describes_one_record seconds_per_unit
             [world_at 20 web_monitor [sink_a; sink_b]] web_monitor).
    repeat split.
Defined.

(** ** The order of the watched distilleries *)

Section ScanOrder.

Variable convert_time_to_seconds : Z -> string -> Z.

Lemma fold_left_permutation (A B : Type) (f : A -> B -> A) :
  (forall a x y, f (f a x) y = f (f a y) x) ->
  forall l l', Permutation l l' ->
  forall a, fold_left f l a = fold_left f l' a.
Proof.
  intros Hcomm l l' Hp.
  induction Hp as [|x l l' Hp IH|x y l|l l' l'' Hp1 IH1 Hp2 IH2]; intros a.
  - reflexivity.
  - simpl. apply IH.
  - simpl. rewrite Hcomm. reflexivity.
  - rewrite IH1. apply IH2.
Qed.

Lemma last_healthy_advance (i : datetime) (d : Distillery.t) (m : Monitor) :
  last_healthy (advance i d m) = lh_step i (last_healthy m) d.
Proof.
  unfold advance, lh_step. destruct (newest d) as [doc|]; [|reflexivity].
  destruct (match last_healthy m with Some _ => _ | None => _ end);
    reflexivity.
Qed.

Lemma last_healthy_scan_at (i : datetime) (ds : list Distillery.t) :
  forall m,
    last_healthy (scan_at i ds m) = fold_left (lh_step i) ds (last_healthy m).
Proof.
  induction ds as [|d ds IH]; intros m; [reflexivity|].
  unfold scan_at in *. cbn [fold_left]. rewrite IH, last_healthy_advance.
  reflexivity.
Qed.

(** Two passes commute as far as [last_healthy] is concerned: the later
    date wins. *)
Lemma lh_step_comm (i : datetime) (o : option datetime)
    (d1 d2 : Distillery.t) :
  lh_step i (lh_step i o d1) d2 = lh_step i (lh_step i o d2) d1.
Proof.
  unfold lh_step.
  destruct (newest d1) as [x|], (newest d2) as [y|]; try reflexivity.
  destruct o as [h|].
  - destruct (Z.ltb_spec h (Doc.date x)), (Z.ltb_spec h (Doc.date y));
      repeat match goal with
             | |- context [?a <? ?b] => destruct (Z.ltb_spec a b)
             end; try reflexivity; try lia; f_equal; lia.
  - destruct (Z.ltb_spec i (Doc.date x)), (Z.ltb_spec i (Doc.date y));
      repeat match goal with
             | |- context [?a <? ?b] => destruct (Z.ltb_spec a b)
             end; try reflexivity; try lia; f_equal; lia.
Qed.

Lemma set_doc_info_twice h a b h' a' b' (m : Monitor) :
  set_doc_info h a b (set_doc_info h' a' b' m) = set_doc_info h a b m.
Proof. reflexivity. Qed.

(** A scan that changes [self] ends with the newest document of one of the
    distilleries, which is newer than [last_healthy] was. *)
Lemma scan_at_cases (i : datetime) (ds : list Distillery.t) :
  forall m,
    scan_at i ds m = m \/
    exists d doc,
      In d ds /\ newest d = Some doc /\
      is_newer (Doc.date doc) (last_healthy m) = true /\
      scan_at i ds m =
      set_doc_info (Some (Doc.date doc)) (Some (Distillery.pk d))
        (Doc._id doc) m.
Proof.
  induction ds as [|d ds IH]; intros m.
  - left. reflexivity.
  - change (scan_at i (d :: ds) m) with (scan_at i ds (advance i d m)).
    destruct (IH (advance i d m)) as [E|(d' & doc & Hd & Hnew & Hn & E)].
    + rewrite E.
      destruct (advance_cases i d m) as [->|(doc & Hnew & Hn & ->)].
      * left. reflexivity.
      * right. exists d, doc. split; [left; reflexivity|auto].
    + right. exists d', doc. split; [right; exact Hd|].
      split; [exact Hnew|]. split.
      * eapply is_newer_mono; [apply advance_mono|exact Hn].
      * rewrite E.
        destruct (advance_cases i d m) as [->|(doc0 & _ & _ & ->)];
          reflexivity.
Qed.

Lemma advance_set (i i' : datetime) (d : Distillery.t) (m : Monitor) :
  last_healthy m <> None -> advance i d m = advance i' d m.
Proof.
  unfold advance. destruct (last_healthy m); [reflexivity|congruence].
Qed.

(** When the clock stands still during the scan, or [last_healthy] is
    already set, every pass sees the same interval start. *)
Lemma scan_pure_scan_at clk (t : datetime) (ds : list Distillery.t) :
  forall k m,
    last_healthy m <> None \/ (forall j, clk j = t) ->
    scan_pure convert_time_to_seconds clk k ds m =
    scan_at (t - timedelta_of_seconds (interval_of convert_time_to_seconds m))
      ds m.
Proof.
  induction ds as [|d ds IH]; intros k m H; [reflexivity|].
  cbn [scan_pure].
  set (i := t - timedelta_of_seconds (interval_of convert_time_to_seconds m)).
  change (scan_at i (d :: ds) m) with (scan_at i ds (advance i d m)).
  assert (Hadv : advance
                   (interval_start_at convert_time_to_seconds clk k m) d m
                 = advance i d m).
  { destruct H as [H|H]; [apply advance_set; exact H|].
    unfold interval_start_at. rewrite H. reflexivity. }
  rewrite Hadv, IH.
  - rewrite interval_of_advance. reflexivity.
  - destruct H as [H|H]; [left|right; exact H].
    pose proof (advance_mono i d m) as Hm.
    destruct (last_healthy m); [|congruence].
    destruct (last_healthy (advance i d m)); [discriminate|contradiction].
Qed.

Lemma newest_dates_unique (ds : list Distillery.t) :
  NoDup (newest_dates ds) ->
  forall d1 d2 x y,
    In d1 ds -> In d2 ds -> newest d1 = Some x -> newest d2 = Some y ->
    Doc.date x = Doc.date y -> d1 = d2.
Proof.
  induction ds as [|d ds IH]; intros Hnd d1 d2 x y H1 H2 Hx Hy Hxy;
    [destruct H1|].
  assert (Hin : forall d' z, In d' ds -> newest d' = Some z ->
                  In (Doc.date z) (newest_dates ds)).
  { intros d' z Hd' Hz. unfold newest_dates. apply in_flat_map.
    exists d'. split; [exact Hd'|]. rewrite Hz. left. reflexivity. }
  cbn [newest_dates flat_map] in Hnd. fold (newest_dates ds) in Hnd.
  destruct H1 as [<-|H1], H2 as [<-|H2].
  - reflexivity.
  - exfalso. rewrite Hx in Hnd. cbn in Hnd. inversion Hnd; subst.
    rewrite Hxy in *. eauto.
  - exfalso. rewrite Hy in Hnd. cbn in Hnd. inversion Hnd; subst.
    rewrite <- Hxy in *. eauto.
  - apply (IH (NoDup_app_remove_l _ _ Hnd) d1 d2 x y); assumption.
Qed.

(** C6, as amended. Let the clock stand still during the scan, or let
    [last_healthy] be set already. Then the [last_healthy] a scan ends with
    does not depend on the order in which the watched distilleries are
    visited; and when no two of them have newest documents of the same
    date, neither do [last_active_distillery] and [last_saved_doc]: the two
    scans end with the same monitor. *)
Theorem scan_order_independent (w : State) (t : datetime)
    (ds ds' : list Distillery.t) (m : Monitor) :
  last_healthy m <> None \/ (forall k, clock w k = t) ->
  Permutation ds ds' ->
  let m1 := refresh convert_time_to_seconds (with_distilleries ds w) m in
  let m2 := refresh convert_time_to_seconds (with_distilleries ds' w) m in
  last_healthy m1 = last_healthy m2 /\
  (NoDup (newest_dates ds) -> m1 = m2).
Proof.
  intros Hclk Hperm m1 m2. unfold m1, m2.
  rewrite !refresh_scan_pure. cbn [clock reads distilleries with_distilleries].
  rewrite !(scan_pure_scan_at (clock w) t) by exact Hclk.
  set (i := t - timedelta_of_seconds (interval_of convert_time_to_seconds m)).
  assert (Hlh : last_healthy (scan_at i ds m) = last_healthy (scan_at i ds' m)).
  { rewrite !last_healthy_scan_at.
    apply fold_left_permutation; [|exact Hperm].
    intros a x y. apply lh_step_comm. }
  split; [exact Hlh|].
  intros Hnd.
  destruct (scan_at_cases i ds m) as [E1|(d1 & x & Hd1 & Hx & Hnx & E1)],
           (scan_at_cases i ds' m) as [E2|(d2 & y & Hd2 & Hy & Hny & E2)].
  - rewrite E1, E2. reflexivity.
  - exfalso. rewrite E1, E2 in Hlh. cbn [last_healthy set_doc_info] in Hlh.
    rewrite Hlh in Hny. unfold is_newer in Hny.
    apply Z.ltb_lt in Hny. lia.
  - exfalso. rewrite E1, E2 in Hlh. cbn [last_healthy set_doc_info] in Hlh.
    rewrite <- Hlh in Hnx. unfold is_newer in Hnx.
    apply Z.ltb_lt in Hnx. lia.
  - assert (Hdate : Doc.date x = Doc.date y).
    { rewrite E1, E2 in Hlh. cbn [last_healthy set_doc_info] in Hlh.
      congruence. }
    assert (Hd : d1 = d2).
    { apply (newest_dates_unique ds Hnd d1 d2 x y); try assumption.
      apply Permutation_sym in Hperm.
      apply (Permutation_in _ Hperm). exact Hd2. }
    subst d2. assert (x = y) by congruence. subst y.
    rewrite E1, E2. reflexivity.
Qed.

End ScanOrder.

(** C6, counterexample. [sink_a] and [sink_c] both have a newest document
    dated 10 s. Scanned in the order a, c the monitor ends with distillery 1
    and document "a2"; in the order c, a with distillery 3 and document
    "c1". *)
Lemma scan_order_matters_on_ties :
  let m1 :=
    refresh seconds_per_unit (world_at 20 web_monitor [sink_a; sink_c])
      web_monitor in
  let m2 :=
    refresh seconds_per_unit (world_at 20 web_monitor [sink_c; sink_a])
      web_monitor in
  Permutation [sink_a; sink_c] [sink_c; sink_a] /\
  last_healthy m1 = Some 10000000 /\
  last_healthy m2 = Some 10000000 /\
  last_active_distillery m1 = Some 1 /\
  last_active_distillery m2 = Some 3 /\
  last_saved_doc m1 = Some "a2"%string /\
  last_saved_doc m2 = Some "c1"%string /\
  last_active_distillery m1 <> last_active_distillery m2 /\
  last_saved_doc m1 <> last_saved_doc m2.
Proof.
  cbv zeta. split; [apply perm_swap|].
  repeat split; try reflexivity; vm_compute; discriminate.
Qed.

(** An instance of C6, as amended: [sink_a] and [sink_b] in either order,
    at time 20 s. *)
Lemma scan_order_independent_witness :
  (last_healthy web_monitor <> None \/
   forall k, clock (world_at 20 web_monitor []) k = 20000000) /\
  Permutation [sink_a; sink_b] [sink_b; sink_a] /\
  NoDup (newest_dates [sink_a; sink_b]) /\
  (let w := world_at 20 web_monitor [] in
   let m1 :=
     refresh seconds_per_unit (with_distilleries [sink_a; sink_b] w)
       web_monitor in
   let m2 :=
     refresh seconds_per_unit (with_distilleries [sink_b; sink_a] w)
       web_monitor in
   last_healthy m1 = last_healthy m2 /\
   (NoDup (newest_dates [sink_a; sink_b]) -> m1 = m2)).
Proof.
  split; [right; intros k; reflexivity|].
  split; [apply perm_swap|].
  split.
  { change (NoDup [10000000; 5000000]).
    constructor; [intros [H|[]]; discriminate H|].
    constructor; [intros []|constructor]. }
  apply (scan_order_independent seconds_per_unit
           (world_at 20 web_monitor []) 20000000
           [sink_a; sink_b] [sink_b; sink_a] web_monitor).
  - right. intros k. reflexivity.
  - apply perm_swap.
Defined.

(** ** Saving a monitor *)

Section Saving.

Variable convert_time_to_seconds : Z -> string -> Z.

Lemma In_update_row (i : Z) (m : Monitor) (rows : list Monitor) :
  has_row i rows = true -> In m (update_row i m rows).
Proof.
  induction rows as [|r rows IH]; cbn [has_row existsb update_row];
    [discriminate|].
  fold (has_row i rows).
  destruct (id r) as [j|].
  - destruct (j =? i); [intros _; left; reflexivity|].
    intro H. right. apply IH. exact H.
  - intro H. right. apply IH. exact H.
Qed.

(** Django's save touches [id], [created_date] and [last_updated] only,
    never raises, and leaves the row of [self] in the monitor table. *)
Lemma Model_save_run (s : State) :
  exists s',
    Model_save s = (Return tt, s') /\
    env_eq (with_monitors (monitors s') s) s' /\
    config_eq (self s) (self s') /\
    alert_info_eq (self s) (self s') /\
    same_doc_info (self s) (self s') /\
    status (self s') = status (self s) /\
    In (self s') (monitors s') /\
    (id (self s) = None -> id (self s') <> None) /\
    (id (self s) <> None -> id (self s') = id (self s)).
Proof.
  unfold Model_save, bind, get_self.
  destruct (id (self s)) as [i|] eqn:Ei.
  - eexists. split; [reflexivity|].
    cbn. unfold env_eq, config_eq, alert_info_eq, same_doc_info. cbn.
    repeat split; try congruence; try assumption.
    change (existsb _ (monitors s)) with (has_row i (monitors s)).
    destruct (has_row i (monitors s)) eqn:Eh.
    + apply In_update_row. exact Eh.
    + apply in_or_app. right. left. reflexivity.
  - eexists. split; [reflexivity|].
    cbn. unfold env_eq, config_eq, alert_info_eq, same_doc_info. cbn.
    repeat split; try congruence.
    apply in_or_app. right. left. reflexivity.
Qed.

Lemma scanned_run (s : State) :
  exists k,
    (if truthy_int (id (self s))
     then _update_doc_info convert_time_to_seconds else ret tt) s =
    (Return tt, scanned convert_time_to_seconds s) /\
    scanned convert_time_to_seconds s =
    with_self (self (scanned convert_time_to_seconds s)) (with_reads k s) /\
    same_but_doc_info (self s) (self (scanned convert_time_to_seconds s)).
Proof.
  unfold scanned. destruct (truthy_int (id (self s))).
  - destruct (_update_doc_info_run convert_time_to_seconds s) as [k Hk].
    exists k. unfold after. rewrite Hk. cbn [snd self with_self].
    split; [reflexivity|]. split; [reflexivity|].
    apply scan_pure_frame.
  - exists (reads s). split; [reflexivity|].
    split; [rewrite with_reads_same, with_self_same; reflexivity|].
    apply same_but_doc_info_refl.
Qed.

(** [_update_fields]: the scan, for a monitor that has an id, and then the
    status, evaluated on what the scan left, at the next reading of the
    clock. *)
Lemma _update_fields_run (s : State) :
  let s1 := scanned convert_time_to_seconds s in
  exists k,
    _update_fields convert_time_to_seconds s =
    (Return tt,
     with_self
       (set_status
          (status_at convert_time_to_seconds (self s1) (clock s1 (reads s1)))
          (self s1))
       (with_reads k s1)).
Proof.
  intros s1. unfold _update_fields, bind at 1, get_self.
  unfold bind at 1.
  destruct (scanned_run s) as (k0 & Hrun & _ & _). rewrite Hrun.
  fold s1. unfold bind.
  destruct (_set_current_status_run convert_time_to_seconds s1) as [k Hk].
  rewrite Hk. exists k. reflexivity.
Qed.

Lemma same_but_doc_info_fields (m m' : Monitor) :
  same_but_doc_info m m' ->
  config_eq m m' /\ alert_info_eq m m' /\ status m' = status m /\
  id m' = id m /\ created_date m' = created_date m /\
  interval_of convert_time_to_seconds m'
    = interval_of convert_time_to_seconds m.
Proof.
  unfold same_but_doc_info. intros ->.
  unfold config_eq, alert_info_eq. cbn. repeat split.
Qed.

(** [save] never raises. It leaves the clock, the watched distilleries and
    the alert table alone, and on [self] the configuration and the alert
    bookkeeping; the document fields are those the scan left, the status is
    the one evaluated after the scan, and the row written is [self]. *)
Lemma save_run (s : State) :
  let s1 := scanned convert_time_to_seconds s in
  exists s',
    save convert_time_to_seconds s = (Return tt, s') /\
    (clock s' = clock s /\ distilleries s' = distilleries s /\
     alert_store_up s' = alert_store_up s /\ alerts s' = alerts s) /\
    config_eq (self s) (self s') /\
    alert_info_eq (self s) (self s') /\
    same_doc_info (self s1) (self s') /\
    status (self s') =
      status_at convert_time_to_seconds (self s1) (clock s1 (reads s1)) /\
    In (self s') (monitors s') /\
    (id (self s) <> None -> id (self s') = id (self s)).
Proof.
  intros s1. unfold save, bind.
  destruct (_update_fields_run s) as [k Hk]. cbv zeta in Hk. fold s1 in Hk.
  rewrite Hk.
  destruct (scanned_run s) as (k0 & _ & Hs1 & Hframe). fold s1 in Hs1, Hframe.
  apply same_but_doc_info_fields in Hframe.
  destruct Hframe as (Hc & Ha & Hst & Hid & _ & _).
  match goal with |- context [Model_save ?s2] =>
    destruct (Model_save_run s2)
      as (s' & Hrun & He & Hc' & Ha' & Hd' & Hst' & Hin & _ & Hid')
  end.
  exists s'. split; [exact Hrun|].
  unfold env_eq in He. cbn [clock distilleries alert_store_up alerts
    monitors with_monitors with_self with_reads self] in *.
  destruct He as (He1 & He2 & He3 & He4 & _).
  assert (Hs1c : clock s1 = clock s /\ distilleries s1 = distilleries s /\
                 alert_store_up s1 = alert_store_up s /\
                 alerts s1 = alerts s).
  { rewrite Hs1. cbn. repeat split. }
  destruct Hs1c as (Hc1 & Hc2 & Hc3 & Hc4).
  split; [repeat split; congruence|].
  unfold config_eq, alert_info_eq, same_doc_info in *. cbn in *.
  split; [intuition congruence|].
  split; [intuition congruence|].
  split; [intuition congruence|].
  split; [exact Hst'|].
  split; [exact Hin|].
  intros Hne. rewrite Hid'; [exact Hid|]. rewrite Hid. exact Hne.
Qed.

End Saving.

Section SaveProperties.

Variable convert_time_to_seconds : Z -> string -> Z.

Lemma status_at_unhealthy (m : Monitor) (now : datetime) :
  status_at convert_time_to_seconds m now = _UNHEALTHY <->
  (inject_Z (interval_of convert_time_to_seconds m)
   < inactive_seconds_at m now)%Q.
Proof.
  unfold status_at. rewrite <- Qgt_bool_iff.
  destruct (Qgt_bool _ _); split; intro H;
    try reflexivity; discriminate.
Qed.

(** C9. [save] never raises. For a monitor without an id it skips the
    activity scan: [last_healthy], [last_active_distillery] and
    [last_saved_doc] are after the save what they were before it, and the
    status is the one evaluated at the next reading of the clock. For a
    monitor with an id (a nonzero primary key) the save runs the activity
    scan and then evaluates the status on the fields the scan left, at the
    reading of the clock that follows the scan. In both cases the row
    written to the monitor table carries that status. *)
Theorem save_scans_only_saved_monitors (s : State) :
  let s' := after (save convert_time_to_seconds) s in
  let s1 := after (_update_doc_info convert_time_to_seconds) s in
  result (save convert_time_to_seconds) s = Return tt /\
  In (self s') (monitors s') /\
  (id (self s) = None ->
   same_doc_info (self s) (self s') /\
   status (self s')
     = status_at convert_time_to_seconds (self s) (clock s (reads s)) /\
   (status (self s') = _UNHEALTHY <->
    (inject_Z (interval_of convert_time_to_seconds (self s))
     < inactive_seconds_at (self s) (clock s (reads s)))%Q)) /\
  (forall n, id (self s) = Some n -> n <> 0 ->
   self s1 = refresh convert_time_to_seconds s (self s) /\
   same_doc_info (self s1) (self s') /\
   status (self s')
     = status_at convert_time_to_seconds (self s1) (clock s (reads s1)) /\
   (status (self s') = _UNHEALTHY <->
    (inject_Z (interval_of convert_time_to_seconds (self s))
     < inactive_seconds_at (self s1) (clock s (reads s1)))%Q)).
Proof.
  intros s' s1.
  destruct (save_run convert_time_to_seconds s)
    as (s2 & Hrun & _ & _ & _ & Hdoc & Hst & Hin & _).
  cbv zeta in Hdoc, Hst.
  assert (Hs' : s' = s2) by (unfold s', after; rewrite Hrun; reflexivity).
  rewrite Hs'.
  split; [unfold result; rewrite Hrun; reflexivity|].
  split; [exact Hin|].
  split.
  - intros Hid. unfold scanned in Hdoc, Hst. rewrite Hid in Hdoc, Hst.
    cbn [truthy_int] in Hdoc, Hst.
    split; [exact Hdoc|]. split; [exact Hst|].
    rewrite Hst. apply status_at_unhealthy.
  - intros n Hid Hn. unfold scanned in Hdoc, Hst. rewrite Hid in Hdoc, Hst.
    cbn [truthy_int] in Hdoc, Hst.
    destruct (Z.eqb_spec n 0) as [|_]; [contradiction|].
    cbn [negb] in Hdoc, Hst. fold s1 in Hdoc, Hst.
    assert (Hclk : clock s1 = clock s).
    { unfold s1, after.
      destruct (_update_doc_info_run convert_time_to_seconds s) as [k Hk].
      rewrite Hk. reflexivity. }
    assert (Hint : interval_of convert_time_to_seconds (self s1)
                   = interval_of convert_time_to_seconds (self s)).
    { unfold s1, after.
      destruct (_update_doc_info_run convert_time_to_seconds s) as [k Hk].
      rewrite Hk. cbn [snd self with_self].
      apply same_but_doc_info_fields. apply scan_pure_frame. }
    rewrite Hclk in Hst.
    split; [|split; [exact Hdoc|split; [exact Hst|]]].
    + unfold s1, refresh. rewrite with_self_same. reflexivity.
    + rewrite Hst, <- Hint. apply status_at_unhealthy.
Qed.

End SaveProperties.

(** ** Alerts *)

Section Alerting.

Variable convert_time_to_seconds : Z -> string -> Z.

Lemma _get_title_run (s : State) :
  exists k,
    _get_title s =
    (Return
       (title_for (name (self s))
          (convert_seconds
             (inactive_seconds_at (self s) (clock s (reads s))))),
     with_reads k s).
Proof.
  unfold _get_title, _get_inactive_interval, bind.
  destruct (_get_inactive_seconds_run s) as [k Hk]. rewrite Hk.
  exists k. reflexivity.
Qed.

(** [_create_alert] raises when the alert table refuses the write, and
    changes nothing then; otherwise it appends one alert, built from the
    title and from [alert_level], [last_active_distillery] and
    [last_saved_doc]. *)
Lemma _create_alert_run (s : State) :
  exists k,
    if alert_store_up s then
      let a :=
        {| Alert.pk := Z.of_nat (S (List.length (alerts s)));
           Alert.created_date := clock s k;
           Alert.title :=
             title_for (name (self s))
               (convert_seconds
                  (inactive_seconds_at (self s) (clock s (reads s))));
           Alert.level := alert_level (self s);
           Alert.alarm := id (self s);
           Alert.distillery := last_active_distillery (self s);
           Alert.doc_id := last_saved_doc (self s) |} in
      _create_alert s =
      (Return a, with_alerts (alerts s ++ [a]) (with_reads (S k) s))
    else _create_alert s = (Raise DatabaseError, with_reads k s).
Proof.
  unfold _create_alert, bind.
  destruct (_get_title_run s) as [k Hk]. rewrite Hk.
  exists k. unfold get_self, Alert_save.
  cbn [self alert_store_up alerts clock reads with_reads].
  destruct (alert_store_up s); reflexivity.
Qed.

Lemma repeat_alert_run (s : State) :
  exists k,
    (if repeating_alerts (self s)
     then _alert_due convert_time_to_seconds else ret false) s =
    (Return
       (repeating_alerts (self s)
        && alert_due_at convert_time_to_seconds (self s)
             (clock s (reads s))),
     with_reads k s).
Proof.
  destruct (repeating_alerts (self s)).
  - destruct (_alert_due_run convert_time_to_seconds s) as [k Hk].
    exists k. rewrite Hk. reflexivity.
  - exists (reads s). rewrite with_reads_same. reflexivity.
Qed.

Lemma _alert_unfold (old_status : string) (s : State) :
  exists k,
    _alert convert_time_to_seconds old_status s =
    (if should_alert convert_time_to_seconds old_status s then
       alert <- _create_alert ;;
       assign (set_last_alert_date (Some (Alert.created_date alert))) ;;
       assign (set_last_alert_id (Some (Alert.pk alert))) ;;
       save convert_time_to_seconds
     else ret tt) (with_reads k s).
Proof.
  unfold _alert, should_alert.
  unfold bind at 1, get_self. unfold bind at 1.
  destruct (repeat_alert_run s) as [k Hk]. rewrite Hk.
  exists k. reflexivity.
Qed.

(** The three ways [_alert] can go: no alert is due and nothing changes;
    an alert is due and the alert table refuses it, so that [_alert] raises
    and nothing changes; or an alert is due and is stored, and [self] is
    saved with its creation date and id. *)
Lemma _alert_run (old_status : string) (s : State) :
  match should_alert convert_time_to_seconds old_status s,
        alert_store_up s with
  | false, _ =>
      exists k,
        _alert convert_time_to_seconds old_status s
          = (Return tt, with_reads k s)
  | true, false =>
      exists k,
        _alert convert_time_to_seconds old_status s
          = (Raise DatabaseError, with_reads k s)
  | true, true =>
      exists a k s',
        _alert convert_time_to_seconds old_status s = (Return tt, s') /\
        alerts s' = alerts s ++ [a] /\
        last_alert_date (self s') = Some (Alert.created_date a) /\
        last_alert_id (self s') = Some (Alert.pk a) /\
        Alert.title a =
          title_for (name (self s))
            (convert_seconds (inactive_seconds_at (self s) (clock s k))) /\
        Alert.level a = alert_level (self s) /\
        Alert.distillery a = last_active_distillery (self s) /\
        Alert.doc_id a = last_saved_doc (self s) /\
        config_eq (self s) (self s') /\
        In (self s') (monitors s')
  end.
Proof.
  destruct (_alert_unfold old_status s) as [k0 Hk0]. rewrite Hk0.
  destruct (should_alert convert_time_to_seconds old_status s).
  - destruct (_create_alert_run (with_reads k0 s)) as [k Hk].
    cbn [alert_store_up with_reads self alerts clock reads] in Hk.
    destruct (alert_store_up s); unfold bind at 1.
    + cbv zeta in Hk. rewrite Hk.
      match type of Hk with _ = (Return ?a0, _) => set (a := a0) in * end.
      unfold bind at 1, assign at 1. unfold bind at 1, assign at 1.
      match goal with |- context [save _ ?s2] =>
        destruct (save_run convert_time_to_seconds s2)
          as (s3 & Hrun & (_ & _ & _ & Hal) & Hc & Ha & _ & _ & Hin & _)
      end.
      rewrite Hrun.
      cbn [alerts with_self with_alerts with_reads self] in Hal.
      unfold config_eq, alert_info_eq in *. cbn in Hc, Ha.
      destruct Ha as [Ha1 Ha2].
      exists a, k0, s3.
      split; [reflexivity|]. split; [exact Hal|].
      split; [exact Ha1|]. split; [exact Ha2|].
      repeat split; try apply Hc. exact Hin.
    + exists k. rewrite Hk. reflexivity.
  - exists k0. reflexivity.
Qed.

Lemma update_status_unfold (s : State) :
  let s1 := after (save convert_time_to_seconds) s in
  update_status convert_time_to_seconds s =
  (if String.eqb (status (self s1)) _UNHEALTHY
   then _alert convert_time_to_seconds (status (self s))
   else ret tt) s1.
Proof.
  intros s1. unfold update_status, bind at 1, get_self. unfold bind at 1.
  destruct (save_run convert_time_to_seconds s) as (s' & Hrun & _).
  assert (Hs1 : s1 = s') by (unfold s1, after; rewrite Hrun; reflexivity).
  rewrite Hrun, Hs1. reflexivity.
Qed.

Lemma config_eq_refl (m : Monitor) : config_eq m m.
Proof. repeat split. Qed.

Lemma config_eq_trans (a b c : Monitor) :
  config_eq a b -> config_eq b c -> config_eq a c.
Proof.
  unfold config_eq.
  intros (A1 & A2 & A3 & A4 & A5 & A6 & A7) (B1 & B2 & B3 & B4 & B5 & B6 & B7).
  repeat split; congruence.
Qed.

Lemma alert_info_eq_trans (a b c : Monitor) :
  alert_info_eq a b -> alert_info_eq b c -> alert_info_eq a c.
Proof.
  unfold alert_info_eq. intros (A1 & A2) (B1 & B2). split; congruence.
Qed.

(** [update_status]: the save, and then, when the status is unhealthy and
    the policy says so, one alert, unless the alert table refuses it. *)
Lemma update_status_cases (s : State) :
  let s1 := after (save convert_time_to_seconds) s in
  let s2 := after (update_status convert_time_to_seconds) s in
  let r := result (update_status convert_time_to_seconds) s in
  config_eq (self s) (self s2) /\
  if String.eqb (status (self s1)) _UNHEALTHY
     && should_alert convert_time_to_seconds (status (self s)) s1
  then
    if alert_store_up s then
      r = Return tt /\
      exists a,
        alerts s2 = alerts s ++ [a] /\
        last_alert_date (self s2) = Some (Alert.created_date a) /\
        last_alert_id (self s2) = Some (Alert.pk a)
    else
      r = Raise DatabaseError /\ alerts s2 = alerts s /\
      alert_info_eq (self s) (self s2)
  else
    r = Return tt /\ alerts s2 = alerts s /\
    alert_info_eq (self s) (self s2).
Proof.
  intros s1 s2 r. unfold s2, r, result, after.
  rewrite update_status_unfold. fold s1.
  destruct (save_run convert_time_to_seconds s)
    as (s' & Hrun & (_ & _ & Hup & Hal) & Hc & Ha & _).
  assert (Hs1 : s1 = s') by (unfold s1, after; rewrite Hrun; reflexivity).
  rewrite <- Hs1 in *. clear Hrun Hs1 s'.
  destruct (String.eqb (status (self s1)) _UNHEALTHY); cbn [andb].
  - pose proof (_alert_run (status (self s)) s1) as Hrun.
    rewrite Hup in Hrun.
    destruct (should_alert convert_time_to_seconds (status (self s)) s1).
    + destruct (alert_store_up s).
      * destruct Hrun as (a & k & s' & Hrun & Hal' & Hd & Hi & _ & _ & _ & _
                          & Hc' & _).
        rewrite Hrun. cbn [fst snd].
        split; [eapply config_eq_trans; eassumption|].
        split; [reflexivity|]. exists a.
        rewrite Hal', Hal. auto.
      * destruct Hrun as [k Hrun]. rewrite Hrun. cbn.
        split; [exact Hc|]. split; [reflexivity|]. split; assumption.
    + destruct Hrun as [k Hrun]. rewrite Hrun. cbn.
      split; [exact Hc|]. split; [reflexivity|]. split; assumption.
  - cbn. split; [exact Hc|]. split; [reflexivity|]. split; assumption.
Qed.

End Alerting.

(** ** The title of an alert *)

Lemma string_append_assoc (a b c : string) :
  ((a ++ b) ++ c = a ++ (b ++ c))%string.
Proof.
  induction a as [|ch a IH]; simpl; [reflexivity|]. rewrite IH. reflexivity.
Qed.

Lemma largest_unit_spec (seconds : Q) :
  let u := largest_unit seconds in
  (1 <= whole_units seconds u \/ u = Seconds) /\
  forall u', unit_seconds u < unit_seconds u' -> whole_units seconds u' < 1.
Proof.
  unfold largest_unit.
  destruct (Z.leb_spec 1 (whole_units seconds Days)) as [Hd|Hd].
  { split; [left; exact Hd|]. intros [] H; simpl in H; lia. }
  destruct (Z.leb_spec 1 (whole_units seconds Hours)) as [Hh|Hh].
  { split; [left; exact Hh|]. intros [] H; simpl in H; try lia. }
  destruct (Z.leb_spec 1 (whole_units seconds Minutes)) as [Hm|Hm].
  { split; [left; exact Hm|]. intros [] H; simpl in H; try lia. }
  split; [right; reflexivity|]. intros [] H; simpl in H; try lia.
Qed.

(** C7. The title of an alert is the text
    [Health monitor "NAME" has seen no activity for over DOWNTIME.] where
    NAME is the monitor's name and DOWNTIME is "N U": U is the largest of
    the units s, m, h, d of which the inactive time holds at least one
    whole (seconds when it holds none), and N the whole number of such
    units in the inactive time, rounded down. This is the title
    [_get_title] computes and the title of the alert [_create_alert]
    stores. *)
Theorem alert_title_format (s : State) :
  let seconds := inactive_seconds_at (self s) (clock s (reads s)) in
  let u := largest_unit seconds in
  let n := Qfloor seconds / unit_seconds u in
  let title :=
    ("Health monitor " ++ dquote ++ name (self s) ++ dquote
     ++ " has seen no activity for over "
     ++ string_of_Z n ++ " " ++ unit_suffix u ++ ".")%string in
  result _get_title s = Return title /\
  (1 <= n \/ u = Seconds) /\
  (forall u', unit_seconds u < unit_seconds u' ->
     Qfloor seconds / unit_seconds u' < 1) /\
  (alert_store_up s = true ->
   exists a,
     result _create_alert s = Return a /\
     Alert.title a = title /\
     alerts (after _create_alert s) = alerts s ++ [a]).
Proof.
  intros seconds u n title.
  destruct (largest_unit_spec seconds) as [Hn Hmax]. fold u in Hn, Hmax.
  split; [|split; [exact Hn|split; [exact Hmax|]]].
  - unfold result. destruct (_get_title_run s) as [k Hk]. rewrite Hk.
    cbn [fst]. unfold title_for, convert_seconds. cbv zeta.
    fold seconds. fold u. unfold title, n, whole_units, dquote.
    rewrite !string_append_assoc. reflexivity.
  - intros Hup. destruct (_create_alert_run s) as [k Hk].
    rewrite Hup in Hk. cbv zeta in Hk.
    eexists. unfold result, after. rewrite Hk. cbn [fst snd].
    split; [reflexivity|]. split; [|reflexivity].
    cbn [Alert.title]. unfold title_for, convert_seconds. cbv zeta.
    fold seconds. fold u. unfold title, n, whole_units, dquote.
    rewrite !string_append_assoc. reflexivity.
Qed.

(** The examples of the specification: 95 s reads "1 m", and so does
    61 s. *)
Example convert_seconds_95 : convert_seconds (95 # 1) = "1 m"%string.
Proof. reflexivity. Qed.

Example title_after_61_seconds :
  result _get_title (world_at 61 web_monitor []) =
  Return (title_for "web" "1 m").
Proof. reflexivity. Qed.

(** ** The alert policy and the alert bookkeeping *)

Section AlertProperties.

Variable convert_time_to_seconds : Z -> string -> Z.

Lemma should_alert_iff (old_status : string) (s : State) :
  should_alert convert_time_to_seconds old_status s = true <->
  alerts_enabled (self s) = true /\
  ((repeating_alerts (self s) = true /\
    result (_alert_due convert_time_to_seconds) s = Return true) \/
   old_status <> _UNHEALTHY).
Proof.
  unfold should_alert, result.
  destruct (_alert_due_run convert_time_to_seconds s) as [k Hk]. rewrite Hk.
  cbn [fst]. fold (alert_due_at convert_time_to_seconds (self s)
                     (clock s (reads s))).
  rewrite andb_true_iff, orb_true_iff, andb_true_iff, negb_true_iff.
  assert (Hd : forall b : bool, b = true <-> Return b = Return true).
  { intros b. split; [intros ->; reflexivity|intros H; inversion H; auto]. }
  rewrite <- Hd.
  assert (Ho : String.eqb old_status _UNHEALTHY = false
               <-> old_status <> _UNHEALTHY).
  { destruct (String.eqb_spec old_status _UNHEALTHY); split; intro H;
      try reflexivity; try discriminate; try assumption; contradiction. }
  rewrite Ho. reflexivity.
Qed.

Lemma app_one_neq (A : Type) (l : list A) (a : A) : l <> l ++ [a].
Proof.
  intro H. apply (f_equal (@List.length A)) in H.
  rewrite length_app in H. simpl in H. lia.
Qed.

(** C8. The activity scan, the status evaluation and [save] leave
    [last_alert_date] and [last_alert_id] as they were. [_alert] does too
    when no alert is due. When an alert is due and the alert table refuses
    it, [_alert] raises and [last_alert_date], [last_alert_id], the alert
    table and the monitor table are as they were; when the alert is stored,
    exactly one alert is added and the two fields are its creation date and
    its id, in [self] and in the row saved. [update_status] with an alert
    table that refuses writes leaves the two fields as they were. *)
Theorem alert_bookkeeping_atomic (old_status : string) (s : State) :
  let s' := after (_alert convert_time_to_seconds old_status) s in
  let r := result (_alert convert_time_to_seconds old_status) s in
  alert_info_eq (self s)
    (self (after (_update_doc_info convert_time_to_seconds) s)) /\
  alert_info_eq (self s)
    (self (after (_set_current_status convert_time_to_seconds) s)) /\
  alert_info_eq (self s) (self (after (save convert_time_to_seconds) s)) /\
  (if should_alert convert_time_to_seconds old_status s then
     if alert_store_up s then
       r = Return tt /\
       exists a,
         alerts s' = alerts s ++ [a] /\
         last_alert_date (self s') = Some (Alert.created_date a) /\
         last_alert_id (self s') = Some (Alert.pk a) /\
         In (self s') (monitors s')
     else
       r = Raise DatabaseError /\
       alert_info_eq (self s) (self s') /\
       alerts s' = alerts s /\ monitors s' = monitors s
   else
     r = Return tt /\ alert_info_eq (self s) (self s') /\
     alerts s' = alerts s) /\
  (alert_store_up s = false ->
   alert_info_eq (self s)
     (self (after (update_status convert_time_to_seconds) s)) /\
   alerts (after (update_status convert_time_to_seconds) s) = alerts s).
Proof.
  intros s' r. split; [|split; [|split; [|split]]].
  - unfold after.
    destruct (_update_doc_info_run convert_time_to_seconds s) as [k Hk].
    rewrite Hk. cbn [snd self with_self].
    apply (same_but_doc_info_fields convert_time_to_seconds).
    apply scan_pure_frame.
  - unfold after.
    destruct (_set_current_status_run convert_time_to_seconds s) as [k Hk].
    rewrite Hk. split; reflexivity.
  - destruct (save_run convert_time_to_seconds s)
      as (s0 & Hrun & _ & _ & Ha & _).
    unfold after. rewrite Hrun. exact Ha.
  - pose proof (_alert_run convert_time_to_seconds old_status s) as Hrun.
    unfold s', r, result, after.
    destruct (should_alert convert_time_to_seconds old_status s).
    + destruct (alert_store_up s).
      * destruct Hrun as (a & k & s0 & Hrun & Hal & Hd & Hi & _ & _ & _ & _
                          & _ & Hin).
        rewrite Hrun. cbn [fst snd]. split; [reflexivity|].
        exists a. auto.
      * destruct Hrun as [k Hrun]. rewrite Hrun. cbn.
        repeat split.
    + destruct Hrun as [k Hrun]. rewrite Hrun. cbn. repeat split.
  - intros Hdown.
    pose proof (update_status_cases convert_time_to_seconds s) as H.
    cbv zeta in H. rewrite Hdown in H. destruct H as [_ H].
    destruct (_ && _); destruct H as (_ & Hal & Ha); split; assumption.
Qed.

(** C4. Let the status be unhealthy after the save of [update_status], and
    let the alert table accept writes. Then [update_status] adds an alert
    exactly when alerts are enabled and either the monitor repeats its
    alerts and [_alert_due] holds, or the status before the update was not
    unhealthy; it never adds more than one. Hence a monitor that does not
    repeat its alerts, has them enabled and goes from a status that is not
    unhealthy to unhealthy adds exactly one alert, and the next
    [update_status], whatever the world it runs in and whatever its outcome,
    adds none. *)
Theorem alert_policy (s : State) :
  let old_status := status (self s) in
  let s1 := after (save convert_time_to_seconds) s in
  let s2 := after (update_status convert_time_to_seconds) s in
  alert_store_up s = true ->
  status (self s1) = _UNHEALTHY ->
  ((exists a, alerts s2 = alerts s ++ [a]) <->
   alerts_enabled (self s) = true /\
   ((repeating_alerts (self s) = true /\
     result (_alert_due convert_time_to_seconds) s1 = Return true) \/
    old_status <> _UNHEALTHY)) /\
  (alerts s2 = alerts s \/ exists a, alerts s2 = alerts s ++ [a]) /\
  (repeating_alerts (self s) = false ->
   alerts_enabled (self s) = true ->
   old_status <> _UNHEALTHY ->
   status (self s2) = _UNHEALTHY ->
   (exists a, alerts s2 = alerts s ++ [a]) /\
   forall w, self w = self s2 -> alerts w = alerts s2 ->
     result (update_status convert_time_to_seconds) w = Return tt /\
     alerts (after (update_status convert_time_to_seconds) w) = alerts s2).
Proof.
  intros old_status s1 s2 Hup Hred.
  pose proof (update_status_cases convert_time_to_seconds s) as Hcases.
  cbv zeta in Hcases. fold s1 s2 old_status in Hcases.
  rewrite Hred, Hup in Hcases. rewrite String.eqb_refl in Hcases.
  cbn [andb] in Hcases. destruct Hcases as [Hcfg Hcases].
  destruct (save_run convert_time_to_seconds s)
    as (s0 & Hrun & _ & Hc1 & _).
  assert (Hs1 : s1 = s0) by (unfold s1, after; rewrite Hrun; reflexivity).
  rewrite <- Hs1 in Hc1. clear Hrun Hs1 s0.
  destruct Hc1 as (_ & _ & _ & _ & Hen & Hrep & _).
  pose proof (should_alert_iff old_status s1) as Hiff.
  rewrite Hen, Hrep in Hiff.
  assert (Hmain : (exists a, alerts s2 = alerts s ++ [a]) <->
                  should_alert convert_time_to_seconds old_status s1 = true).
  { destruct (should_alert convert_time_to_seconds old_status s1).
    - destruct Hcases as (_ & a & Ha & _).
      split; [reflexivity|]. intros _. exists a. exact Ha.
    - destruct Hcases as (_ & Hal & _). split; [|discriminate].
      intros [a Ha]. exfalso. rewrite Hal in Ha.
      exact (app_one_neq _ _ _ Ha). }
  split; [rewrite Hmain; exact Hiff|]. split.
  - destruct (should_alert convert_time_to_seconds old_status s1).
    + right. destruct Hcases as (_ & a & Ha & _). exists a. exact Ha.
    + left. apply Hcases.
  - intros Hnorep Henabled Hold Hstays.
    split; [apply Hmain, Hiff; split; [exact Henabled|right; exact Hold]|].
    intros w Hself Halerts.
    pose proof (update_status_cases convert_time_to_seconds w) as Hw.
    cbv zeta in Hw. destruct Hw as [_ Hw].
    set (w1 := after (save convert_time_to_seconds) w) in *.
    assert (Hno : should_alert convert_time_to_seconds (status (self w)) w1
                  = false).
    { destruct (save_run convert_time_to_seconds w)
        as (w0 & Hrunw & _ & Hcw & _).
      assert (Hw1 : w1 = w0) by (unfold w1, after; rewrite Hrunw; reflexivity).
      rewrite <- Hw1 in Hcw. destruct Hcw as (_ & _ & _ & _ & _ & Hrepw & _).
      destruct Hcfg as (_ & _ & _ & _ & _ & Hrep2 & _).
      unfold should_alert. rewrite Hrepw, Hself, Hrep2, Hnorep, Hstays.
      rewrite String.eqb_refl. cbn. apply andb_false_r. }
    rewrite Hno, andb_false_r in Hw. destruct Hw as (Hr & Hal & _).
    split; [exact Hr|]. rewrite Hal. exact Halerts.
Qed.

End AlertProperties.

(** An instance of C4: the monitor "web", healthy, with an interval of 60 s
    and no activity since its creation at time 0, updated at time 61 s. *)
Lemma alert_policy_witness :
  let s := world_at 61 web_monitor [] in
  let old_status := status (self s) in
  let s1 := after (save seconds_per_unit) s in
  let s2 := after (update_status seconds_per_unit) s in
  alert_store_up s = true /\
  status (self s1) = _UNHEALTHY /\
  ((exists a, alerts s2 = alerts s ++ [a]) <->
   alerts_enabled (self s) = true /\
   ((repeating_alerts (self s) = true /\
     result (_alert_due seconds_per_unit) s1 = Return true) \/
    old_status <> _UNHEALTHY)) /\
  (alerts s2 = alerts s \/ exists a, alerts s2 = alerts s ++ [a]) /\
  (repeating_alerts (self s) = false ->
   alerts_enabled (self s) = true ->
   old_status <> _UNHEALTHY ->
   status (self s2) = _UNHEALTHY ->
   (exists a, alerts s2 = alerts s ++ [a]) /\
   forall w, self w = self s2 -> alerts w = alerts s2 ->
     result (update_status seconds_per_unit) w = Return tt /\
     alerts (after (update_status seconds_per_unit) w) = alerts s2).
Proof.
  cbv zeta.
  split; [reflexivity|]. split; [reflexivity|].
  apply (alert_policy seconds_per_unit (world_at 61 web_monitor []));
    reflexivity.
Defined.

(** * Further properties of the activity scan *)

Section ScanCompleteness.

Variable convert_time_to_seconds : Z -> string -> Z.

Lemma hd_sort_none (l : list Doc.t) :
  hd_error (sort_desc l) = None -> l = [].
Proof.
  destruct l as [|x l]; [reflexivity|].
  rewrite hd_sort_cons. destruct (hd_error (sort_desc l)) as [y|].
  - destruct (Doc.date x <? Doc.date y); discriminate.
  - discriminate.
Qed.

Lemma newest_max (d : Distillery.t) (doc : Doc.t) :
  newest d = Some doc ->
  truthy_str (Distillery.searchable_date_field d) = true /\
  In doc (Distillery.collection d) /\
  forall doc', In doc' (Distillery.collection d) ->
    Doc.date doc' <= Doc.date doc.
Proof.
  unfold newest. destruct (truthy_str _); [|discriminate].
  intro H. apply hd_sort_In in H. split; [reflexivity|exact H].
Qed.

Lemma newest_some (d : Distillery.t) (doc' : Doc.t) :
  truthy_str (Distillery.searchable_date_field d) = true ->
  In doc' (Distillery.collection d) ->
  exists doc, newest d = Some doc /\ Doc.date doc' <= Doc.date doc.
Proof.
  intros Ht Hin. unfold newest. rewrite Ht.
  destruct (hd_error (sort_desc (Distillery.collection d))) as [doc|] eqn:E.
  - exists doc. split; [reflexivity|]. apply hd_sort_In in E. apply E, Hin.
  - apply hd_sort_none in E. rewrite E in Hin. destruct Hin.
Qed.


Lemma scan_pure_skips (clk : nat -> datetime) (ds : list Distillery.t) :
  forall k m,
    scan_pure convert_time_to_seconds clk k ds m =
    scan_pure convert_time_to_seconds clk k
      (filter (fun d => truthy_str (Distillery.searchable_date_field d)) ds)
      m.
Proof.
  induction ds as [|d ds IH]; intros k m; [reflexivity|].
  cbn [scan_pure filter].
  destruct (truthy_str (Distillery.searchable_date_field d)) eqn:Ht.
  - cbn [scan_pure]. rewrite Ht. apply IH.
  - unfold advance, newest. rewrite Ht. apply IH.
Qed.

(** X2. A distillery without a searchable date field ([None] or the empty
    string) takes no part in the scan: its pass changes nothing, not even
    the count of clock reads, and a scan ends as the scan of the
    distilleries that have such a field. *)
Theorem distilleries_without_date_field_are_skipped
    (w s : State) (m : Monitor) (d : Distillery.t) :
  refresh convert_time_to_seconds w m =
  refresh convert_time_to_seconds
    (with_distilleries
       (filter (fun d => truthy_str (Distillery.searchable_date_field d))
          (distilleries w)) w) m /\
  (truthy_str (Distillery.searchable_date_field d) = false ->
   _update_doc_info_body convert_time_to_seconds d s = (Return tt, s) /\
   result (_get_most_recent_doc convert_time_to_seconds d) s = Return None).
Proof.
  split.
  - rewrite !refresh_scan_pure.
    cbn [clock reads distilleries with_distilleries].
    apply scan_pure_skips.
  - intros Ht. split.
    + rewrite _update_doc_info_body_run. rewrite Ht.
      unfold advance, newest. rewrite Ht.
      rewrite with_reads_same, with_self_same. reflexivity.
    + unfold result. rewrite _get_most_recent_doc_run.
      unfold newest. rewrite Ht. reflexivity.
Qed.

End ScanCompleteness.

Section ScanReach.

Variable convert_time_to_seconds : Z -> string -> Z.

Lemma scan_at_mono (i : datetime) (ds : list Distillery.t) :
  forall m, lh_le (last_healthy m) (last_healthy (scan_at i ds m)).
Proof.
  induction ds as [|d ds IH]; intros m.
  - apply lh_le_refl.
  - change (scan_at i (d :: ds) m) with (scan_at i ds (advance i d m)).
    apply lh_le_trans with (last_healthy (advance i d m));
      [apply advance_mono|apply IH].
Qed.

Lemma lh_le_some (x : datetime) (o : option datetime) :
  lh_le (Some x) o -> exists h, o = Some h /\ x <= h.
Proof.
  destruct o as [h|]; simpl; intro H; [|contradiction].
  exists h. split; [reflexivity|exact H].
Qed.

(** After the pass of a distillery, [last_healthy] is not before its
    newest document, when [last_healthy] was set or the document is dated
    after the interval start. *)
Lemma advance_upper (i : datetime) (d : Distillery.t) (doc : Doc.t)
    (m : Monitor) :
  newest d = Some doc ->
  last_healthy m <> None \/ i < Doc.date doc ->
  lh_le (Some (Doc.date doc)) (last_healthy (advance i d m)).
Proof.
  intros Hn H. unfold advance. rewrite Hn.
  destruct (last_healthy m) as [h|] eqn:Eh.
  - destruct (Z.ltb_spec h (Doc.date doc)).
    + cbn. lia.
    + rewrite Eh. cbn. lia.
  - destruct H as [H|H]; [congruence|].
    destruct (Z.ltb_spec i (Doc.date doc)); [|lia]. cbn. lia.
Qed.

Lemma scan_at_upper (i : datetime) (ds : list Distillery.t)
    (d : Distillery.t) (doc : Doc.t) :
  forall m,
    In d ds -> newest d = Some doc ->
    last_healthy m <> None \/ i < Doc.date doc ->
    lh_le (Some (Doc.date doc)) (last_healthy (scan_at i ds m)).
Proof.
  induction ds as [|d0 ds IH]; intros m Hin Hn H; [destruct Hin|].
  change (scan_at i (d0 :: ds) m) with (scan_at i ds (advance i d0 m)).
  destruct Hin as [->|Hin].
  - apply lh_le_trans with (last_healthy (advance i d m));
      [apply advance_upper; assumption|apply scan_at_mono].
  - apply IH; [exact Hin|exact Hn|].
    destruct H as [H|H]; [left|right; exact H].
    pose proof (advance_mono i d0 m) as Hm.
    destruct (last_healthy m); [|congruence].
    destruct (last_healthy (advance i d0 m)); [discriminate|contradiction].
Qed.

(** A [last_healthy] that a scan sets from unset lies after the interval
    start. *)
Lemma scan_at_floor (i : datetime) (ds : list Distillery.t) :
  forall m,
    match last_healthy m with Some h => i < h | None => True end ->
    match last_healthy (scan_at i ds m) with
    | Some h => i < h
    | None => True
    end.
Proof.
  induction ds as [|d ds IH]; intros m H; [exact H|].
  change (scan_at i (d :: ds) m) with (scan_at i ds (advance i d m)).
  apply IH. unfold advance.
  destruct (newest d) as [doc|]; [|exact H].
  destruct (last_healthy m) as [h|] eqn:Eh.
  - destruct (Z.ltb_spec h (Doc.date doc)); [cbn; lia|rewrite Eh; exact H].
  - destruct (Z.ltb_spec i (Doc.date doc)); [cbn; lia|rewrite Eh; exact I].
Qed.

Lemma scan_at_fixed (i : datetime) (ds : list Distillery.t) (m : Monitor) :
  (forall d, In d ds -> advance i d m = m) -> scan_at i ds m = m.
Proof.
  induction ds as [|d ds IH]; intros H; [reflexivity|].
  change (scan_at i (d :: ds) m) with (scan_at i ds (advance i d m)).
  rewrite (H d (or_introl eq_refl)). apply IH.
  intros d' Hd'. apply H. right. exact Hd'.
Qed.

Lemma interval_of_scan_at (i : datetime) (ds : list Distillery.t) :
  forall m,
    interval_of convert_time_to_seconds (scan_at i ds m) =
    interval_of convert_time_to_seconds m.
Proof.
  induction ds as [|d ds IH]; intros m; [reflexivity|].
  change (scan_at i (d :: ds) m) with (scan_at i ds (advance i d m)).
  rewrite IH. apply interval_of_advance.
Qed.

Lemma scan_at_idempotent (i : datetime) (ds : list Distillery.t)
    (m : Monitor) :
  scan_at i ds (scan_at i ds m) = scan_at i ds m.
Proof.
  apply scan_at_fixed. intros d Hd.
  set (m1 := scan_at i ds m).
  unfold advance. destruct (newest d) as [doc|] eqn:Hn; [|reflexivity].
  assert (Hup : last_healthy m <> None \/ i < Doc.date doc ->
                exists h, last_healthy m1 = Some h /\ Doc.date doc <= h).
  { intros H. apply lh_le_some. apply scan_at_upper with (d := d);
      assumption. }
  destruct (last_healthy m1) as [h|] eqn:E1.
  - destruct (Z.ltb_spec h (Doc.date doc)) as [Hlt|]; [|reflexivity].
    exfalso.
    destruct (last_healthy m) as [h0|] eqn:E0.
    + destruct Hup as (h' & Hh' & Hle); [left; discriminate|].
      inversion Hh'; subst. lia.
    + pose proof (scan_at_floor i ds m) as Hf. rewrite E0 in Hf.
      fold m1 in Hf. rewrite E1 in Hf. specialize (Hf I).
      destruct (Z.lt_ge_cases i (Doc.date doc)) as [Hi|Hi]; [|lia].
      destruct Hup as (h' & Hh' & Hle); [right; exact Hi|].
      inversion Hh'; subst. lia.
  - destruct (Z.ltb_spec i (Doc.date doc)) as [Hlt|]; [|reflexivity].
    exfalso. destruct Hup as (h' & Hh' & _); [right; exact Hlt|].
    discriminate.
Qed.

Lemma refresh_reaches_document (w : State) (t : datetime)
    (m : Monitor) (d : Distillery.t) (doc : Doc.t) :
  last_healthy m <> None \/
  ((forall k, clock w k = t) /\
   t - timedelta_of_seconds (interval_of convert_time_to_seconds m)
     < Doc.date doc) ->
  In d (distilleries w) ->
  truthy_str (Distillery.searchable_date_field d) = true ->
  In doc (Distillery.collection d) ->
  exists h,
    last_healthy (refresh convert_time_to_seconds w m) = Some h /\
    Doc.date doc <= h.
Proof.
  intros H Hd Ht Hdoc.
  destruct (newest_some d doc Ht Hdoc) as (top & Htop & Hle).
  rewrite refresh_scan_pure.
  rewrite (scan_pure_scan_at convert_time_to_seconds (clock w) t)
    by (destruct H as [H|[H _]]; [left|right]; exact H).
  set (i := t - timedelta_of_seconds
                 (interval_of convert_time_to_seconds m)) in *.
  assert (Hup : lh_le (Some (Doc.date top))
                  (last_healthy (scan_at i (distilleries w) m))).
  { apply scan_at_upper with (d := d); [exact Hd|exact Htop|].
    destruct H as [H|[_ H]]; [left; exact H|right; lia]. }
  apply lh_le_some in Hup. destruct Hup as (h & Hh & Hle').
  exists h. split; [exact Hh|lia].
Qed.

(** X3. The scan reaches the newest activity. For a document of a watched
    distillery that has a searchable date field: when [last_healthy] is set
    before the scan, or the clock stands still during the scan and the
    document is dated after the interval start, [last_healthy] is set after
    the scan and is not before the document's date. *)
Theorem scan_reaches_every_document (w : State) (t : datetime)
    (m : Monitor) (d : Distillery.t) (doc : Doc.t) :
  last_healthy m <> None \/
  ((forall k, clock w k = t) /\
   t - timedelta_of_seconds (interval_of convert_time_to_seconds m)
     < Doc.date doc) ->
  In d (distilleries w) ->
  truthy_str (Distillery.searchable_date_field d) = true ->
  In doc (Distillery.collection d) ->
  exists h,
    last_healthy (refresh convert_time_to_seconds w m) = Some h /\
    Doc.date doc <= h.
Proof. apply refresh_reaches_document. Qed.

(** X4. A second scan of the same distilleries changes nothing, when
    [last_healthy] was set before the first scan or the clock stands still
    during both. *)
Theorem second_scan_changes_nothing (w w' : State) (t : datetime)
    (m : Monitor) :
  distilleries w' = distilleries w ->
  last_healthy m <> None \/
  ((forall k, clock w k = t) /\ (forall k, clock w' k = t)) ->
  refresh convert_time_to_seconds w'
    (refresh convert_time_to_seconds w m)
  = refresh convert_time_to_seconds w m.
Proof.
  intros Hds H.
  assert (Hm1 : refresh convert_time_to_seconds w m =
                scan_at
                  (t - timedelta_of_seconds
                         (interval_of convert_time_to_seconds m))
                  (distilleries w) m).
  { rewrite refresh_scan_pure.
    apply scan_pure_scan_at.
    destruct H as [H|[H _]]; [left|right]; exact H. }
  rewrite refresh_scan_pure, Hds.
  rewrite (scan_pure_scan_at convert_time_to_seconds (clock w') t).
  - rewrite Hm1. rewrite interval_of_scan_at. apply scan_at_idempotent.
  - destruct H as [H|[_ H]]; [left|right; exact H].
    rewrite Hm1.
    pose proof (scan_at_mono
                  (t - timedelta_of_seconds
                         (interval_of convert_time_to_seconds m))
                  (distilleries w) m) as Hmono.
    destruct (last_healthy m); [|congruence].
    destruct (last_healthy (scan_at _ _ _)); [discriminate|contradiction].
Qed.

End ScanReach.

(** * Further properties of the status *)

Section StatusOverTime.

Variable convert_time_to_seconds : Z -> string -> Z.

Lemma overdue_Z (e : timedelta) (i : Z) :
  Qgt_bool (total_seconds e) (inject_Z i) = true <->
  timedelta_of_seconds i < e.
Proof.
  rewrite Qgt_bool_iff.
  unfold Qlt, total_seconds, inject_Z, timedelta_of_seconds. simpl. lia.
Qed.

Lemma overdue_zero (i : Z) : Qgt_bool 0 (inject_Z i) = true <-> i < 0.
Proof. rewrite Qgt_bool_iff. unfold Qlt, inject_Z. simpl. lia. Qed.

Lemma status_at_cases (m : Monitor) (now : datetime) :
  (status_at convert_time_to_seconds m now = _UNHEALTHY \/
   status_at convert_time_to_seconds m now = _HEALTHY) /\
  (status_at convert_time_to_seconds m now = _UNHEALTHY <->
   Qgt_bool (inactive_seconds_at m now)
     (inject_Z (interval_of convert_time_to_seconds m)) = true).
Proof.
  unfold status_at. destruct (Qgt_bool _ _).
  - split; [left; reflexivity|]. split; reflexivity.
  - split; [right; reflexivity|]. split; discriminate.
Qed.

(** X5. Once overdue, overdue at every later reading of the clock, as long as
    [self] is the same: the inactivity only grows. *)
Theorem overdue_persists (s s' : State) :
  self s' = self s ->
  clock s (reads s) <= clock s' (reads s') ->
  result (_is_overdue convert_time_to_seconds) s = Return true ->
  result (_is_overdue convert_time_to_seconds) s' = Return true.
Proof.
  intros Hself Hclk. unfold result.
  destruct (_is_overdue_run convert_time_to_seconds s) as [k Hk].
  destruct (_is_overdue_run convert_time_to_seconds s') as [k' Hk'].
  rewrite Hk, Hk', Hself. cbn [fst].
  intros H. injection H as Hov. f_equal.
  revert Hov. unfold inactive_seconds_at.
  destruct (last_healthy (self s)) as [h|].
  - rewrite !overdue_Z. lia.
  - destruct (created_date (self s)) as [c|]; [|intros Hov; exact Hov].
    rewrite !overdue_Z. lia.
Qed.

(** X6. A monitor that has neither a [last_healthy] nor a [created_date], as
    one that was never saved, has been inactive for 0 seconds whatever the
    clock reads: [save] leaves it healthy unless its interval is negative,
    and does not consult the distilleries when it has no id. *)
Theorem unsaved_monitor_is_healthy (s : State) :
  last_healthy (self s) = None ->
  created_date (self s) = None ->
  id (self s) = None ->
  let s' := after (save convert_time_to_seconds) s in
  (0 <= interval_of convert_time_to_seconds (self s) ->
   status (self s') = _HEALTHY) /\
  (interval_of convert_time_to_seconds (self s) < 0 ->
   status (self s') = _UNHEALTHY) /\
  same_doc_info (self s) (self s').
Proof.
  intros Hlh Hcd Hid s'.
  destruct (save_run convert_time_to_seconds s)
    as (s0 & Hrun & _ & _ & _ & Hdoc & Hst & _).
  cbv zeta in Hdoc, Hst.
  assert (Hs' : s' = s0) by (unfold s', after; rewrite Hrun; reflexivity).
  rewrite Hs'. unfold scanned in Hdoc, Hst. rewrite Hid in Hdoc, Hst.
  cbn [truthy_int] in Hdoc, Hst.
  unfold status_at, inactive_seconds_at in Hst. rewrite Hlh, Hcd in Hst.
  pose proof (overdue_zero (interval_of convert_time_to_seconds (self s)))
    as Hz.
  destruct (Qgt_bool 0 _).
  - split; [intros H; exfalso; assert (true = true) as E by reflexivity;
            apply Hz in E; lia|].
    split; [intros _; exact Hst|exact Hdoc].
  - split; [intros _; exact Hst|].
    split; [intros H; apply Hz in H; discriminate|exact Hdoc].
Qed.

End StatusOverTime.

Section SaveEndToEnd.

Variable convert_time_to_seconds : Z -> string -> Z.

(** With a clock that stands still, [save] of a monitor that has an id
    gives it the status of the scanned monitor at that time. *)
Lemma save_status_frozen (s : State) (t : datetime) (n : Z) :
  id (self s) = Some n -> n <> 0 ->
  (forall k, clock s k = t) ->
  status (self (after (save convert_time_to_seconds) s)) =
  status_at convert_time_to_seconds
    (refresh convert_time_to_seconds s (self s)) t.
Proof.
  intros Hid Hn Hclk.
  destruct (save_run convert_time_to_seconds s)
    as (s0 & Hrun & _ & _ & _ & _ & Hst & _).
  cbv zeta in Hst. unfold after at 1. rewrite Hrun. cbn [snd].
  rewrite Hst. unfold scanned. rewrite Hid. cbn [truthy_int].
  destruct (Z.eqb_spec n 0) as [|_]; [contradiction|]. cbn [negb].
  unfold refresh. rewrite with_self_same.
  destruct (_update_doc_info_run convert_time_to_seconds s) as [k Hk].
  unfold after. rewrite Hk. cbn [snd self clock with_self with_reads].
  rewrite Hclk. reflexivity.
Qed.

(** X7. Recent activity makes a monitor healthy. When a watched distillery
    that has a searchable date field holds a document dated less than the
    interval before now, [save] of a monitor that has an id sets its status
    to healthy, whatever [last_healthy] and the status were. *)
Theorem recent_activity_is_healthy (s : State) (t : datetime) (n : Z)
    (d : Distillery.t) (doc : Doc.t) :
  id (self s) = Some n -> n <> 0 ->
  (forall k, clock s k = t) ->
  In d (distilleries s) ->
  truthy_str (Distillery.searchable_date_field d) = true ->
  In doc (Distillery.collection d) ->
  t - Doc.date doc
    < timedelta_of_seconds (interval_of convert_time_to_seconds (self s)) ->
  status (self (after (save convert_time_to_seconds) s)) = _HEALTHY.
Proof.
  intros Hid Hn Hclk Hd Ht Hdoc Hrecent.
  rewrite (save_status_frozen s t n Hid Hn Hclk).
  set (m1 := refresh convert_time_to_seconds s (self s)).
  destruct (refresh_reaches_document convert_time_to_seconds s t (self s)
              d doc) as (h & Hh & Hle); try assumption.
  { right. split; [exact Hclk|lia]. }
  fold m1 in Hh.
  assert (Hint : interval_of convert_time_to_seconds m1
                 = interval_of convert_time_to_seconds (self s)).
  { unfold m1. rewrite refresh_scan_pure.
    apply same_but_doc_info_fields. apply scan_pure_frame. }
  destruct (status_at_cases convert_time_to_seconds m1 t)
    as [[Hred|Hgreen] Hiff]; [|exact Hgreen].
  exfalso. apply Hiff in Hred. unfold inactive_seconds_at in Hred.
  rewrite Hh, Hint in Hred. apply overdue_Z in Hred. lia.
Qed.

(** X8. Silence makes a monitor unhealthy. When the monitor on its own would
    be overdue at time [t] and every document of the watched distilleries
    that have a searchable date field is dated more than the interval
    before [t], [save] of a monitor that has an id sets its status to
    unhealthy. *)
Theorem silence_is_unhealthy (s : State) (t : datetime) (n : Z) :
  id (self s) = Some n -> n <> 0 ->
  (forall k, clock s k = t) ->
  result (_is_overdue convert_time_to_seconds) s = Return true ->
  (forall d doc,
     In d (distilleries s) ->
     truthy_str (Distillery.searchable_date_field d) = true ->
     In doc (Distillery.collection d) ->
     timedelta_of_seconds (interval_of convert_time_to_seconds (self s))
       < t - Doc.date doc) ->
  status (self (after (save convert_time_to_seconds) s)) = _UNHEALTHY.
Proof.
  intros Hid Hn Hclk Hov Hold.
  rewrite (save_status_frozen s t n Hid Hn Hclk).
  unfold result in Hov.
  destruct (_is_overdue_run convert_time_to_seconds s) as [k Hk].
  rewrite Hk, Hclk in Hov. cbn [fst] in Hov. injection Hov as Hov.
  rewrite refresh_scan_pure.
  rewrite (scan_pure_scan_at convert_time_to_seconds (clock s) t)
    by (right; exact Hclk).
  set (i := t - timedelta_of_seconds
                 (interval_of convert_time_to_seconds (self s))).
  destruct (scan_at_cases i (distilleries s) (self s))
    as [->|(d & doc & Hd & Hnew & _ & ->)].
  - apply status_at_cases. exact Hov.
  - apply status_at_cases.
    destruct (newest_max d doc Hnew) as (Ht & Hin & _).
    unfold inactive_seconds_at. cbn [last_healthy set_doc_info].
    rewrite interval_of_set_doc_info. apply overdue_Z.
    apply (Hold d doc Hd Ht Hin).
Qed.

End SaveEndToEnd.

(** * Further properties of [update_status] *)

Section UpdateStatus.

Variable convert_time_to_seconds : Z -> string -> Z.

Lemma config_eq_interval (m m' : Monitor) :
  config_eq m m' ->
  interval_of convert_time_to_seconds m'
  = interval_of convert_time_to_seconds m.
Proof.
  intros (_ & _ & Hi & Hu & _). unfold interval_of. rewrite Hi, Hu.
  reflexivity.
Qed.

(** When an alert is due and the alert table accepts it, [_alert] stores
    the alert, writes its creation date and id to [self] and saves. *)
Lemma _alert_fires (old_status : string) (s : State) :
  should_alert convert_time_to_seconds old_status s = true ->
  alert_store_up s = true ->
  exists k0 k,
    let a :=
      {| Alert.pk := Z.of_nat (S (List.length (alerts s)));
         Alert.created_date := clock s k;
         Alert.title :=
           title_for (name (self s))
             (convert_seconds (inactive_seconds_at (self s) (clock s k0)));
         Alert.level := alert_level (self s);
         Alert.alarm := id (self s);
         Alert.distillery := last_active_distillery (self s);
         Alert.doc_id := last_saved_doc (self s) |} in
    _alert convert_time_to_seconds old_status s =
    save convert_time_to_seconds
      (with_self
         (set_last_alert_id (Some (Alert.pk a))
            (set_last_alert_date (Some (Alert.created_date a)) (self s)))
         (with_alerts (alerts s ++ [a]) (with_reads (S k) s))).
Proof.
  intros Hfire Hup.
  destruct (_alert_unfold convert_time_to_seconds old_status s) as [k0 Hk0].
  rewrite Hk0, Hfire.
  destruct (_create_alert_run (with_reads k0 s)) as [k Hk].
  cbn [alert_store_up with_reads self alerts clock reads] in Hk.
  rewrite Hup in Hk. cbv zeta in Hk.
  exists k0, k. cbv zeta. unfold bind at 1. rewrite Hk.
  reflexivity.
Qed.

(** The four ways [update_status] can go. *)
Lemma update_status_outcome (s : State) :
  let s1 := after (save convert_time_to_seconds) s in
  alert_store_up s1 = alert_store_up s /\
  if String.eqb (status (self s1)) _UNHEALTHY then
    if should_alert convert_time_to_seconds (status (self s)) s1 then
      if alert_store_up s then
        exists s_mid,
          update_status convert_time_to_seconds s
            = save convert_time_to_seconds s_mid /\
          clock s_mid = clock s /\ distilleries s_mid = distilleries s /\
          same_doc_info (self s1) (self s_mid) /\
          config_eq (self s1) (self s_mid) /\
          id (self s_mid) = id (self s1) /\
          exists a,
            alerts s_mid = alerts s ++ [a] /\
            last_alert_date (self s_mid) = Some (Alert.created_date a) /\
            last_alert_id (self s_mid) = Some (Alert.pk a) /\
            Alert.level a = alert_level (self s1) /\
            Alert.alarm a = id (self s1) /\
            Alert.distillery a = last_active_distillery (self s1) /\
            Alert.doc_id a = last_saved_doc (self s1)
      else
        exists k,
          update_status convert_time_to_seconds s
            = (Raise DatabaseError, with_reads k s1)
    else
      exists k,
        update_status convert_time_to_seconds s
          = (Return tt, with_reads k s1)
  else update_status convert_time_to_seconds s = (Return tt, s1).
Proof.
  intros s1. rewrite update_status_unfold. fold s1.
  destruct (save_run convert_time_to_seconds s)
    as (s' & Hrun & (Hclk & Hds & Hup & Hal) & _).
  assert (Hs1 : s1 = s') by (unfold s1, after; rewrite Hrun; reflexivity).
  rewrite <- Hs1 in *. clear Hrun Hs1 s'.
  split; [exact Hup|].
  destruct (String.eqb (status (self s1)) _UNHEALTHY); [|reflexivity].
  pose proof (_alert_run convert_time_to_seconds (status (self s)) s1)
    as Hrun.
  destruct (should_alert convert_time_to_seconds (status (self s)) s1)
    eqn:Hfire.
  - rewrite Hup in Hrun. destruct (alert_store_up s) eqn:Hs.
    + clear Hrun.
      destruct (_alert_fires (status (self s)) s1 Hfire Hup)
        as (k0 & k & Heq).
      cbv zeta in Heq. rewrite Heq. eexists. split; [reflexivity|].
      cbn [clock distilleries self alerts with_self with_alerts with_reads].
      split; [exact Hclk|]. split; [exact Hds|].
      split; [repeat split|]. split; [repeat split|].
      split; [reflexivity|].
      eexists. rewrite Hal. repeat split.
    + exact Hrun.
  - exact Hrun.
Qed.

(** X9. A monitor whose alerts are disabled never raises an alert:
    [update_status] returns normally even when the alert table refuses
    writes, the alert table is as it was and so are [last_alert_date] and
    [last_alert_id]. *)
Theorem update_status_with_alerts_disabled (s : State) :
  alerts_enabled (self s) = false ->
  let s2 := after (update_status convert_time_to_seconds) s in
  result (update_status convert_time_to_seconds) s = Return tt /\
  alerts s2 = alerts s /\
  alert_info_eq (self s) (self s2).
Proof.
  intros Hoff s2.
  pose proof (update_status_cases convert_time_to_seconds s) as H.
  cbv zeta in H. fold s2 in H. destruct H as [_ H].
  destruct (save_run convert_time_to_seconds s)
    as (s' & Hrun & _ & (_ & _ & _ & _ & Hen & _) & _).
  assert (Hs1 : after (save convert_time_to_seconds) s = s')
    by (unfold after; rewrite Hrun; reflexivity).
  rewrite Hs1 in H. unfold should_alert in H.
  rewrite Hen, Hoff in H. cbn [andb] in H. rewrite andb_false_r in H.
  exact H.
Qed.


End UpdateStatus.

Section UpdateStatusProperties.

Variable convert_time_to_seconds : Z -> string -> Z.

Lemma after_save_eq (s s' : State) (r : Outcome unit) :
  save convert_time_to_seconds s = (r, s') ->
  after (save convert_time_to_seconds) s = s'.
Proof. intros H. unfold after. rewrite H. reflexivity. Qed.

(** [save] never moves [last_healthy] backwards and leaves one of the two
    statuses. *)
Lemma save_more (s : State) :
  let s' := after (save convert_time_to_seconds) s in
  lh_le (last_healthy (self s)) (last_healthy (self s')) /\
  (status (self s') = _UNHEALTHY \/ status (self s') = _HEALTHY).
Proof.
  intros s'.
  destruct (save_run convert_time_to_seconds s)
    as (s0 & Hrun & _ & _ & _ & (Hlh & _) & Hst & _).
  cbv zeta in Hlh, Hst. apply after_save_eq in Hrun. fold s' in Hrun.
  rewrite <- Hrun in *. clear Hrun s0. split.
  - rewrite Hlh. unfold scanned.
    destruct (truthy_int (id (self s))); [|apply lh_le_refl].
    unfold after.
    destruct (_update_doc_info_run convert_time_to_seconds s) as [k Hk].
    rewrite Hk. cbn [snd self with_self]. apply scan_pure_mono.
  - rewrite Hst. apply status_at_cases.
Qed.

(** X11. What [update_status] never does: it never changes the configuration
    of the monitor, never moves [last_healthy] backwards, never removes an
    alert nor adds more than one, and, raising or not, it leaves the status
    at one of the two values [_HEALTHY] and [_UNHEALTHY]. *)
Theorem update_status_frame (s : State) :
  let s2 := after (update_status convert_time_to_seconds) s in
  config_eq (self s) (self s2) /\
  lh_le (last_healthy (self s)) (last_healthy (self s2)) /\
  (alerts s2 = alerts s \/ exists a, alerts s2 = alerts s ++ [a]) /\
  (status (self s2) = _UNHEALTHY \/ status (self s2) = _HEALTHY) /\
  clock s2 = clock s /\ distilleries s2 = distilleries s.
Proof.
  intros s2. unfold s2, after.
  pose proof (update_status_outcome convert_time_to_seconds s) as H.
  cbv zeta in H. destruct H as [_ H].
  set (s1 := after (save convert_time_to_seconds) s) in *.
  destruct (save_run convert_time_to_seconds s)
    as (s0 & Hrun & (Hclk & Hds & _ & Hal) & Hc & _).
  apply after_save_eq in Hrun. fold s1 in Hrun. rewrite <- Hrun in *.
  clear Hrun s0.
  destruct (save_more s) as [Hlh Hst]. fold s1 in Hlh, Hst.
  assert (Hbase : forall k,
            config_eq (self s) (self (with_reads k s1)) /\
            lh_le (last_healthy (self s))
              (last_healthy (self (with_reads k s1))) /\
            (alerts (with_reads k s1) = alerts s \/
             exists a, alerts (with_reads k s1) = alerts s ++ [a]) /\
            (status (self (with_reads k s1)) = _UNHEALTHY \/
             status (self (with_reads k s1)) = _HEALTHY) /\
            clock (with_reads k s1) = clock s /\
            distilleries (with_reads k s1) = distilleries s).
  { intros k. cbn [self alerts clock distilleries with_reads]. auto 10. }
  destruct (String.eqb (status (self s1)) _UNHEALTHY).
  - destruct (should_alert convert_time_to_seconds (status (self s)) s1).
    + destruct (alert_store_up s).
      * destruct H as (s_mid & Heq & Hclk' & Hds' & (Hlh' & _) & Hc' & _
                       & a & Hal' & _).
        rewrite Heq.
        destruct (save_run convert_time_to_seconds s_mid)
          as (s3 & Hrun & (Hclk3 & Hds3 & _ & Hal3) & Hc3 & _).
        destruct (save_more s_mid) as [Hlh3 Hst3].
        rewrite (after_save_eq _ _ _ Hrun) in Hlh3, Hst3.
        rewrite Hrun. cbn [snd].
        split; [eapply config_eq_trans;
                [eapply config_eq_trans; eassumption|exact Hc3]|].
        split; [rewrite Hlh' in Hlh3;
                eapply lh_le_trans; eassumption|].
        split; [right; exists a; congruence|].
        split; [exact Hst3|]. split; congruence.
      * destruct H as [k H]. rewrite H. apply Hbase.
    + destruct H as [k H]. rewrite H. apply Hbase.
  - rewrite H. cbn [snd]. specialize (Hbase (reads s1)).
    rewrite with_reads_same in Hbase. exact Hbase.
Qed.

(** X12. An alert that [update_status] adds refers to what the monitor holds
    after the save of that update: its level is [alert_level], its alarm
    the monitor's id, and its distillery and document are
    [last_active_distillery] and [last_saved_doc] as the activity scan of
    this update left them. [last_alert_date] and [last_alert_id] are the
    creation date and the id of that alert. *)
Theorem alert_refers_to_scanned_document (s : State) :
  let s1 := after (save convert_time_to_seconds) s in
  let s2 := after (update_status convert_time_to_seconds) s in
  alert_store_up s = true ->
  status (self s1) = _UNHEALTHY ->
  alerts_enabled (self s) = true ->
  (repeating_alerts (self s) = true /\
   result (_alert_due convert_time_to_seconds) s1 = Return true) \/
  status (self s) <> _UNHEALTHY ->
  exists a,
    alerts s2 = alerts s ++ [a] /\
    Alert.level a = alert_level (self s) /\
    Alert.alarm a = id (self s1) /\
    Alert.distillery a = last_active_distillery (self s1) /\
    Alert.doc_id a = last_saved_doc (self s1) /\
    last_alert_date (self s2) = Some (Alert.created_date a) /\
    last_alert_id (self s2) = Some (Alert.pk a) /\
    (forall n, id (self s) = Some n -> n <> 0 ->
       same_doc_info (refresh convert_time_to_seconds s (self s)) (self s1)).
Proof.
  intros s1 s2 Hup Hred Hen Hpol.
  pose proof (update_status_outcome convert_time_to_seconds s) as H.
  cbv zeta in H. fold s1 in H. destruct H as [_ H].
  destruct (save_run convert_time_to_seconds s)
    as (s0 & Hrun & _ & Hc & _ & Hdoc & _).
  cbv zeta in Hdoc.
  apply after_save_eq in Hrun. fold s1 in Hrun. rewrite <- Hrun in *.
  clear Hrun s0.
  assert (Hfire : should_alert convert_time_to_seconds (status (self s)) s1
                  = true).
  { apply should_alert_iff. destruct Hc as (_ & _ & _ & _ & He & Hr & _).
    rewrite He, Hr. split; [exact Hen|exact Hpol]. }
  rewrite Hred, String.eqb_refl, Hfire, Hup in H.
  destruct H as (s_mid & Heq & _ & _ & Hdoc' & _ & _
                 & a & Hal & Hd & Hi & Hlev & Halarm & Hdist & Hdid).
  destruct (save_run convert_time_to_seconds s_mid)
    as (s3 & Hrun & (_ & _ & _ & Hal3) & _ & (Ha1 & Ha2) & _).
  assert (Hs2 : s2 = s3) by (unfold s2, after; rewrite Heq, Hrun; reflexivity).
  exists a. rewrite Hs2.
  split; [congruence|].
  split; [destruct Hc as (_ & _ & _ & _ & _ & _ & Hl); congruence|].
  split; [exact Halarm|]. split; [exact Hdist|]. split; [exact Hdid|].
  split; [congruence|]. split; [congruence|].
  intros n Hid Hn. unfold scanned in Hdoc. rewrite Hid in Hdoc.
  cbn [truthy_int] in Hdoc.
  destruct (Z.eqb_spec n 0) as [|_]; [contradiction|]. cbn [negb] in Hdoc.
  unfold refresh. rewrite with_self_same. exact Hdoc.
Qed.

End UpdateStatusProperties.

Section UpdateStatusErrors.

Variable convert_time_to_seconds : Z -> string -> Z.


(** X14. A monitor with repeating alerts that was unhealthy and still is
    raises a further alert exactly when more than the interval has passed
    since [last_alert_date], or no time at all; when some time, but not
    more than the interval, has passed it raises none. *)
Theorem repeating_monitor_alerts_again_after_interval
    (s : State) (last_alert : datetime) :
  let s1 := after (save convert_time_to_seconds) s in
  let s2 := after (update_status convert_time_to_seconds) s in
  let elapsed := clock s (reads s1) - last_alert in
  let interval :=
    timedelta_of_seconds (interval_of convert_time_to_seconds (self s)) in
  alert_store_up s = true ->
  status (self s) = _UNHEALTHY ->
  status (self s1) = _UNHEALTHY ->
  alerts_enabled (self s) = true ->
  repeating_alerts (self s) = true ->
  last_alert_date (self s) = Some last_alert ->
  ((exists a, alerts s2 = alerts s ++ [a]) <->
   elapsed = 0 \/ interval < elapsed) /\
  (elapsed <> 0 -> elapsed <= interval -> alerts s2 = alerts s).
Proof.
  intros s1 s2 elapsed interval Hup Hold Hred Hen Hrep Hlast.
  pose proof (update_status_cases convert_time_to_seconds s) as H.
  cbv zeta in H. fold s1 s2 in H. destruct H as [_ H].
  destruct (save_run convert_time_to_seconds s)
    as (s0 & Hrun & (Hclk & _) & Hc & (Hla & _) & _).
  apply after_save_eq in Hrun. fold s1 in Hrun. rewrite <- Hrun in *.
  clear Hrun s0.
  assert (Hfire : should_alert convert_time_to_seconds (status (self s)) s1
                  = (if elapsed =? 0 then true else interval <? elapsed)).
  { unfold should_alert, alert_due_at.
    rewrite (config_eq_interval convert_time_to_seconds _ _ Hc).
    destruct Hc as (_ & _ & _ & _ & He & Hr & _).
    rewrite He, Hr, Hen, Hrep, Hold, Hla, Hlast, Hclk.
    rewrite String.eqb_refl. cbn [andb orb negb]. fold elapsed.
    rewrite orb_false_r.
    destruct (elapsed =? 0); [reflexivity|].
    pose proof (overdue_Z elapsed
                  (interval_of convert_time_to_seconds (self s))) as Hz.
    fold interval in Hz.
    destruct (Qgt_bool _ _); destruct (Z.ltb_spec interval elapsed);
      try reflexivity; exfalso.
    - assert (E : true = true) by reflexivity. apply Hz in E. lia.
    - apply Hz in H0. discriminate.
  }
  rewrite Hred, String.eqb_refl, Hup, Hfire in H. cbn [andb] in H.
  destruct (Z.eqb_spec elapsed 0) as [Hz|Hnz].
  - destruct H as (_ & a & Ha & _).
    split; [split; [intros _; left; exact Hz|intros _; exists a; exact Ha]|].
    intros Hc'. contradiction.
  - destruct (Z.ltb_spec interval elapsed) as [Hlt|Hge].
    + destruct H as (_ & a & Ha & _).
      split; [split; [intros _; right; exact Hlt
                     |intros _; exists a; exact Ha]|].
      intros _ Hle. lia.
    + destruct H as (_ & Hal & _).
      split; [|intros _ _; exact Hal].
      split; [|intros [Hc'|Hc']; [contradiction|lia]].
      intros [a Ha]. exfalso. rewrite Hal in Ha.
      exact (app_one_neq _ _ _ Ha).
Qed.

End UpdateStatusErrors.

(** * Instances of the further properties *)

(** The scan of [sink_a] and [sink_b] at 20 s reaches the document "b1" of
    [sink_b], dated 5 s. *)
Lemma scan_reaches_every_document_witness :
  let w := world_at 20 web_monitor [sink_a; sink_b] in
  let doc := {| Doc._id := Some "b1"%string; Doc.date := 5000000 |} in
  (last_healthy web_monitor <> None \/
   ((forall k, clock w k = 20000000) /\
    20000000 - timedelta_of_seconds (interval_of seconds_per_unit web_monitor)
      < Doc.date doc)) /\
  In sink_b (distilleries w) /\
  truthy_str (Distillery.searchable_date_field sink_b) = true /\
  In doc (Distillery.collection sink_b) /\
  exists h,
    last_healthy (refresh seconds_per_unit w web_monitor) = Some h /\
    Doc.date doc <= h.
Proof.
  cbv zeta.
  assert (H1 : last_healthy web_monitor <> None \/
               ((forall k,
                   clock (world_at 20 web_monitor [sink_a; sink_b]) k
                   = 20000000) /\
                20000000
                - timedelta_of_seconds
                    (interval_of seconds_per_unit web_monitor)
                < 5000000)).
  { right. split; [intros k; reflexivity|reflexivity]. }
  assert (H2 : In sink_b [sink_a; sink_b]) by (right; left; reflexivity).
  assert (H3 : In {| Doc._id := Some "b1"%string; Doc.date := 5000000 |}
                 (Distillery.collection sink_b)) by (left; reflexivity).
  split; [exact H1|]. split; [exact H2|]. split; [reflexivity|].
  split; [exact H3|].
  exact (scan_reaches_every_document seconds_per_unit
           (world_at 20 web_monitor [sink_a; sink_b]) 20000000 web_monitor
           sink_b {| Doc._id := Some "b1"%string; Doc.date := 5000000 |}
           H1 H2 eq_refl H3).
Defined.

Lemma second_scan_changes_nothing_witness :
  let w := world_at 20 web_monitor [sink_a; sink_b] in
  distilleries w = distilleries w /\
  (last_healthy web_monitor <> None \/
   ((forall k, clock w k = 20000000) /\ (forall k, clock w k = 20000000))) /\
  refresh seconds_per_unit w (refresh seconds_per_unit w web_monitor)
  = refresh seconds_per_unit w web_monitor.
Proof.
  cbv zeta.
  assert (H : last_healthy web_monitor <> None \/
              ((forall k,
                  clock (world_at 20 web_monitor [sink_a; sink_b]) k
                  = 20000000) /\
               (forall k,
                  clock (world_at 20 web_monitor [sink_a; sink_b]) k
                  = 20000000))).
  { right. split; intros k; reflexivity. }
  split; [reflexivity|]. split; [exact H|].
  exact (second_scan_changes_nothing seconds_per_unit _ _ 20000000
           web_monitor eq_refl H).
Defined.

(** The monitor "web", overdue at 61 s, is overdue at 100 s. *)
Lemma overdue_persists_witness :
  let s := world_at 61 web_monitor [] in
  let s' := world_at 100 web_monitor [] in
  self s' = self s /\
  clock s (reads s) <= clock s' (reads s') /\
  result (_is_overdue seconds_per_unit) s = Return true /\
  result (_is_overdue seconds_per_unit) s' = Return true.
Proof.
  cbv zeta.
  assert (H : clock (world_at 61 web_monitor [])
                (reads (world_at 61 web_monitor []))
              <= clock (world_at 100 web_monitor [])
                   (reads (world_at 100 web_monitor [])))
    by (vm_compute; discriminate).
  split; [reflexivity|]. split; [exact H|]. split; [reflexivity|].
  exact (overdue_persists seconds_per_unit (world_at 61 web_monitor [])
           (world_at 100 web_monitor []) eq_refl H eq_refl).
Defined.

Lemma unsaved_monitor_is_healthy_witness :
  let s := world_at 1000 new_monitor [sink_a] in
  let s' := after (save seconds_per_unit) s in
  last_healthy (self s) = None /\
  created_date (self s) = None /\
  id (self s) = None /\
  (0 <= interval_of seconds_per_unit (self s) ->
   status (self s') = _HEALTHY) /\
  (interval_of seconds_per_unit (self s) < 0 ->
   status (self s') = _UNHEALTHY) /\
  same_doc_info (self s) (self s').
Proof.
  cbv zeta. split; [reflexivity|]. split; [reflexivity|].
  split; [reflexivity|].
  exact (unsaved_monitor_is_healthy seconds_per_unit
           (world_at 1000 new_monitor [sink_a]) eq_refl eq_refl eq_refl).
Defined.

(** The monitor "web", marked unhealthy, saved at 20 s while [sink_a] holds
    a document dated 10 s. *)
Lemma recent_activity_is_healthy_witness :
  let s := world_at 20 (set_status _UNHEALTHY web_monitor) [sink_a] in
  let doc := {| Doc._id := Some "a2"%string; Doc.date := 10000000 |} in
  id (self s) = Some 1 /\ 1 <> 0 /\
  (forall k, clock s k = 20000000) /\
  In sink_a (distilleries s) /\
  truthy_str (Distillery.searchable_date_field sink_a) = true /\
  In doc (Distillery.collection sink_a) /\
  20000000 - Doc.date doc
    < timedelta_of_seconds (interval_of seconds_per_unit (self s)) /\
  status (self (after (save seconds_per_unit) s)) = _HEALTHY.
Proof.
  cbv zeta.
  assert (H0 : 1 <> 0) by discriminate.
  assert (H1 : forall k,
            clock (world_at 20 (set_status _UNHEALTHY web_monitor) [sink_a])
              k = 20000000) by (intros k; reflexivity).
  assert (H2 : In sink_a [sink_a]) by (left; reflexivity).
  assert (H3 : In {| Doc._id := Some "a2"%string; Doc.date := 10000000 |}
                 (Distillery.collection sink_a))
    by (right; left; reflexivity).
  split; [reflexivity|]. split; [exact H0|]. split; [exact H1|].
  split; [exact H2|]. split; [reflexivity|]. split; [exact H3|].
  split; [reflexivity|].
  exact (recent_activity_is_healthy seconds_per_unit
           (world_at 20 (set_status _UNHEALTHY web_monitor) [sink_a])
           20000000 1 sink_a
           {| Doc._id := Some "a2"%string; Doc.date := 10000000 |}
           eq_refl H0 H1 H2 eq_refl H3 eq_refl).
Defined.

(** The monitor "web" saved at 100 s while the newest document of
    [sink_a] is dated 10 s. *)
Lemma silence_is_unhealthy_witness :
  let s := world_at 100 web_monitor [sink_a] in
  id (self s) = Some 1 /\ 1 <> 0 /\
  (forall k, clock s k = 100000000) /\
  result (_is_overdue seconds_per_unit) s = Return true /\
  (forall d doc,
     In d (distilleries s) ->
     truthy_str (Distillery.searchable_date_field d) = true ->
     In doc (Distillery.collection d) ->
     timedelta_of_seconds (interval_of seconds_per_unit (self s))
       < 100000000 - Doc.date doc) /\
  status (self (after (save seconds_per_unit) s)) = _UNHEALTHY.
Proof.
  cbv zeta.
  assert (H0 : 1 <> 0) by discriminate.
  assert (H1 : forall k, clock (world_at 100 web_monitor [sink_a]) k
                         = 100000000) by (intros k; reflexivity).
  assert (H2 : forall d doc,
            In d (distilleries (world_at 100 web_monitor [sink_a])) ->
            truthy_str (Distillery.searchable_date_field d) = true ->
            In doc (Distillery.collection d) ->
            timedelta_of_seconds
              (interval_of seconds_per_unit
                 (self (world_at 100 web_monitor [sink_a])))
            < 100000000 - Doc.date doc).
  { intros d doc [<-|[]] _ [<-|[<-|[]]]; reflexivity. }
  split; [reflexivity|]. split; [exact H0|]. split; [exact H1|].
  split; [reflexivity|]. split; [exact H2|].
  exact (silence_is_unhealthy seconds_per_unit
           (world_at 100 web_monitor [sink_a]) 100000000 1
           eq_refl H0 H1 eq_refl H2).
Defined.

(** The monitor "web" with alerts disabled, overdue at 61 s. *)
Lemma update_status_with_alerts_disabled_witness :
  let s := world_at 61 quiet_monitor [] in
  let s2 := after (update_status seconds_per_unit) s in
  alerts_enabled (self s) = false /\
  status (self s2) = _UNHEALTHY /\
  result (update_status seconds_per_unit) s = Return tt /\
  alerts s2 = alerts s /\
  alert_info_eq (self s) (self s2).
Proof.
  cbv zeta. split; [reflexivity|]. split; [reflexivity|].
  exact (update_status_with_alerts_disabled seconds_per_unit
           (world_at 61 quiet_monitor []) eq_refl).
Defined.


(** The monitor "web", last healthy at 5 s, updated at 100 s while the
    newest document of [sink_a] is dated 10 s: the alert names distillery 1
    and document "a2". *)
Lemma alert_refers_to_scanned_document_witness :
  let s :=
    world_at 100 (set_last_healthy (Some 5000000) web_monitor) [sink_a] in
  let s1 := after (save seconds_per_unit) s in
  let s2 := after (update_status seconds_per_unit) s in
  alert_store_up s = true /\
  status (self s1) = _UNHEALTHY /\
  alerts_enabled (self s) = true /\
  last_active_distillery (self s1) = Some 1 /\
  last_saved_doc (self s1) = Some "a2"%string /\
  exists a,
    alerts s2 = alerts s ++ [a] /\
    Alert.level a = alert_level (self s) /\
    Alert.alarm a = id (self s1) /\
    Alert.distillery a = last_active_distillery (self s1) /\
    Alert.doc_id a = last_saved_doc (self s1) /\
    last_alert_date (self s2) = Some (Alert.created_date a) /\
    last_alert_id (self s2) = Some (Alert.pk a) /\
    (forall n, id (self s) = Some n -> n <> 0 ->
       same_doc_info (refresh seconds_per_unit s (self s)) (self s1)).
Proof.
  cbv zeta. split; [reflexivity|]. split; [reflexivity|].
  split; [reflexivity|]. split; [reflexivity|]. split; [reflexivity|].
  apply (alert_refers_to_scanned_document seconds_per_unit
           (world_at 100 (set_last_healthy (Some 5000000) web_monitor)
              [sink_a]));
    try reflexivity.
  right. vm_compute. discriminate.
Defined.

(** The repeating monitor, whose last alert dates from 61 s, updated at
    200 s. *)
Lemma repeating_monitor_alerts_again_after_interval_witness :
  let s := world_at 200 repeating_monitor [] in
  let s1 := after (save seconds_per_unit) s in
  let s2 := after (update_status seconds_per_unit) s in
  let elapsed := clock s (reads s1) - 61000000 in
  let interval :=
    timedelta_of_seconds (interval_of seconds_per_unit (self s)) in
  alert_store_up s = true /\
  status (self s) = _UNHEALTHY /\
  status (self s1) = _UNHEALTHY /\
  alerts_enabled (self s) = true /\
  repeating_alerts (self s) = true /\
  last_alert_date (self s) = Some 61000000 /\
  ((exists a, alerts s2 = alerts s ++ [a]) <->
   elapsed = 0 \/ interval < elapsed) /\
  (elapsed <> 0 -> elapsed <= interval -> alerts s2 = alerts s).
Proof.
  cbv zeta. repeat (split; [reflexivity|]).
  apply (repeating_monitor_alerts_again_after_interval seconds_per_unit
           (world_at 200 repeating_monitor []) 61000000);
    reflexivity.
Defined.
